(** * sethub-mvp: settings holder and database session wrappers

    A shallow embedding of [backend/app/core/config.py] and
    [backend/app/database/session.py].

    The two modules are glue code around pydantic-settings and SQLAlchemy.
    The embedding keeps what the Python code itself does: attribute loads and
    stores on instances, private-name mangling, method resolution along the
    class hierarchy, keyword-argument unpacking, the generator behind
    [create_async_session], the [contextlib.contextmanager] wrapper around
    [open_async_session], and the order of the calls made into the library.
    The library is a parameter: every call into it is recorded in a trace and
    an oracle decides whether the call returns or raises. *)

From Stdlib Require Import String Ascii List Bool Arith ZArith Lia.
Import ListNotations.
Local Open Scope string_scope.
Local Open Scope list_scope.

(** ** Strings and association lists *)

Definition ends_with (suffix s : string) : bool :=
  let n := String.length s in
  let k := String.length suffix in
  if Nat.leb k n then String.eqb (substring (n - k) k s) suffix else false.

Fixpoint strip_leading_underscores (s : string) : string :=
  match s with
  | String "_" rest => strip_leading_underscores rest
  | _ => s
  end.

Fixpoint contains_dot (s : string) : bool :=
  match s with
  | EmptyString => false
  | String "." _ => true
  | String _ rest => contains_dot rest
  end.

(** Private-name mangling, as the Python compiler applies it to an identifier
    that occurs inside the body of class [cls]. *)
Definition mangle (cls name : string) : string :=
  if negb (prefix "__" name) then name
  else if ends_with "__" name then name
  else if contains_dot name then name
  else
    match strip_leading_underscores cls with
    | EmptyString => name
    | stripped => ("_" ++ stripped ++ name)%string
    end.

Section Assoc.
Context {V : Type}.

Fixpoint assoc (k : string) (l : list (string * V)) : option V :=
  match l with
  | [] => None
  | (k', v) :: rest => if String.eqb k k' then Some v else assoc k rest
  end.

Definition has_key (k : string) (l : list (string * V)) : bool :=
  match assoc k l with Some _ => true | None => false end.

(** [d[k] = v] on a dict kept in insertion order: an existing key keeps its
    place, a new key goes last. *)
Fixpoint assoc_set (k : string) (v : V) (l : list (string * V))
  : list (string * V) :=
  match l with
  | [] => [(k, v)]
  | (k', v') :: rest =>
      if String.eqb k k' then (k, v) :: rest
      else (k', v') :: assoc_set k v rest
  end.
End Assoc.

(** ** Paths ([pathlib.PurePosixPath]) *)

Record Path := mkPath { absolute : bool; parts : list string }.

(** Splitting on ["/"]; empty components and ["."] are dropped, as pathlib
    does when it parses. *)
Fixpoint split_slash (acc : string) (s : string) : list string :=
  match s with
  | EmptyString => [acc]
  | String "/" rest => acc :: split_slash "" rest
  | String c rest => split_slash (acc ++ String c "")%string rest
  end.

Definition proper_component (c : string) : bool :=
  negb (String.eqb c "") && negb (String.eqb c ".").

Definition Path_of (s : string) : Path :=
  {| absolute := prefix "/" s;
     parts := filter proper_component (split_slash "" s) |}.

(** [p.parent]: the root and the empty relative path are their own parent. *)
Definition parent (p : Path) : Path :=
  {| absolute := absolute p; parts := removelast (parts p) |}.

(** [p / q]: an absolute right operand replaces the left one. *)
Definition truediv (p q : Path) : Path :=
  if absolute q then q
  else {| absolute := absolute p; parts := parts p ++ parts q |}.

Definition Path_str (p : Path) : string :=
  match absolute p, parts p with
  | false, [] => "."
  | true, _ => ("/" ++ String.concat "/" (parts p))%string
  | false, _ => String.concat "/" (parts p)
  end.

Declare Scope path_scope.
Delimit Scope path_scope with path.
Infix "/" := truediv : path_scope.

(** ** Values, exceptions, library calls *)

(** The exceptions the program meets: those the interpreter raises for a
    missing attribute, a bad call, a generator misused or the stack
    exhausted, and whatever the library raises. *)
Inductive exn : Type :=
| AttributeError (type_name attr : string)
| TypeError (msg : string)
| RuntimeError (msg : string)
| StopIteration
| RecursionError
| LibraryError (code : nat).

Definition exn_class (e : exn) : string :=
  match e with
  | AttributeError _ _ => "AttributeError"
  | TypeError _ => "TypeError"
  | RuntimeError _ => "RuntimeError"
  | StopIteration => "StopIteration"
  | RecursionError => "RecursionError"
  | LibraryError _ => "SQLAlchemyError"
  end.

Definition exn_eqb (a b : exn) : bool :=
  match a, b with
  | AttributeError t1 n1, AttributeError t2 n2 =>
      String.eqb t1 t2 && String.eqb n1 n2
  | TypeError m1, TypeError m2 => String.eqb m1 m2
  | RuntimeError m1, RuntimeError m2 => String.eqb m1 m2
  | StopIteration, StopIteration => true
  | RecursionError, RecursionError => true
  | LibraryError c1, LibraryError c2 => Nat.eqb c1 c2
  | _, _ => false
  end.

#[local] Set Warnings "-register-all".

(** Python values as far as the two modules handle them.  Objects with
    identity (instances, generators, context managers) live in the heap and
    are referred to by address; what the library hands out (URLs, engines,
    session factories, sessions) is kept as a handle that remembers where it
    came from. *)
Inductive value : Type :=
| VNone
| VBool (b : bool)
| VInt (z : Z)
| VStr (s : string)
| VPath (p : Path)
| VDict (items : list (string * value))
| VClass (name : string)
| VRef (addr : nat)
| VUrl (components : list (string * value))
| VEngine (id : nat)
| VSessionFactory (id : nat)
| VSession (id : nat)
| VException (e : exn).

Definition kwargs := list (string * value).

(** Everything observable outside the interpreter: the [print] of the
    settings module and the calls into SQLAlchemy, in program order.  A call
    is recorded when it is made, whether it then returns or raises.  The
    position of a creating call in the trace is the identity of the object it
    creates. *)
Inductive event : Type :=
| Print (text : string)
| URL_create_call (kw : kwargs)
| create_async_engine_call (url : value) (kw : kwargs)
| async_sessionmaker_call (kw : kwargs)
| session_factory_call (factory : nat)
| session_commit (session : nat)
| session_rollback (session : nat)
| session_close (session : nat).

(** Calls that reach for the database or prepare to: all but [print] and the
    pure URL constructor. *)
Definition database_event (ev : event) : bool :=
  match ev with
  | Print _ | URL_create_call _ => false
  | _ => true
  end.

Inductive gen_state : Type := GEN_CREATED | GEN_SUSPENDED | GEN_CLOSED.

Inductive cell : Type :=
| Instance (cls : string) (dict : list (string * value))
| Generator (self : value) (state : gen_state)
| GeneratorContextManager (gen : value).

(** The library: the parameter list of [URL.create] (name, default if any)
    and an oracle that says, from the calls made so far (the last one being
    the call in progress), whether that call raises. *)
Record Library : Type := mkLibrary {
  URL_create_signature : list (string * option value);
  outcome : list event -> option exn
}.

Record world : Type := mkWorld {
  heap : list (nat * cell);
  trace : list event;
  (** the module global [app.core.config.settings], which is also the default
      of [DatabaseSession.__init__]'s [settings] parameter *)
  config_settings : value;
  (** the installed SQLAlchemy *)
  library : Library
}.

Definition with_heap (h : list (nat * cell)) (w : world) : world :=
  {| heap := h; trace := trace w;
     config_settings := config_settings w; library := library w |}.

Definition with_trace (t : list event) (w : world) : world :=
  {| heap := heap w; trace := t;
     config_settings := config_settings w; library := library w |}.

Definition with_config_settings (v : value) (w : world) : world :=
  {| heap := heap w; trace := trace w;
     config_settings := v; library := library w |}.

(** ** The interpreter monad: state and exceptions *)

Definition M (A : Type) : Type := world -> (exn + A) * world.

Definition ret {A} (a : A) : M A := fun w => (inr a, w).
Definition raise {A} (e : exn) : M A := fun w => (inl e, w).
Definition bind {A B} (m : M A) (f : A -> M B) : M B :=
  fun w =>
    match m w with
    | (inr a, w') => f a w'
    | (inl e, w') => (inl e, w')
    end.

(** [try: m except BaseException as e: ...] hands the outcome to the caller. *)
Definition attempt {A} (m : M A) : M (exn + A) :=
  fun w => let (r, w') := m w in (inr r, w').

Declare Scope py_scope.
Delimit Scope py_scope with py.
Notation "x <- m ;; k" := (bind m (fun x => k))
  (at level 61, m at next level, right associativity) : py_scope.
Notation "m ;; k" := (bind m (fun _ => k))
  (at level 61, right associativity) : py_scope.
Local Open Scope py_scope.

Definition lift {A} (r : exn + A) : M A := fun w => (r, w).

Definition emit (ev : event) : M nat :=
  fun w => (inr (List.length (trace w)), with_trace (trace w ++ [ev]) w).

(** ** The heap *)

Fixpoint heap_get (a : nat) (h : list (nat * cell)) : option cell :=
  match h with
  | [] => None
  | (a', c) :: rest => if Nat.eqb a a' then Some c else heap_get a rest
  end.

Definition fresh (h : list (nat * cell)) : nat :=
  S (list_max (map fst h)).

Definition alloc (c : cell) : M value :=
  fun w => let a := fresh (heap w) in
           (inr (VRef a), with_heap ((a, c) :: heap w) w).

Definition heap_put (a : nat) (c : cell) : M unit :=
  fun w => (inr tt, with_heap ((a, c) :: heap w) w).

Definition type_name (v : value) (w : world) : string :=
  match v with
  | VNone => "NoneType"
  | VBool _ => "bool"
  | VInt _ => "int"
  | VStr _ => "str"
  | VPath _ => "PosixPath"
  | VDict _ => "dict"
  | VClass _ => "type"
  | VRef a =>
      match heap_get a (heap w) with
      | Some (Instance cls _) => cls
      | Some (Generator _ _) => "generator"
      | Some (GeneratorContextManager _) => "_GeneratorContextManager"
      | None => "object"
      end
  | VUrl _ => "URL"
  | VEngine _ => "AsyncEngine"
  | VSessionFactory _ => "async_sessionmaker"
  | VSession _ => "AsyncSession"
  | VException _ => "Exception"
  end.

Definition attribute_error {A} (v : value) (name : string) : M A :=
  fun w => (inl (AttributeError (type_name v w) name), w).

(** [v.name] read as data: the instance dictionary decides.  The class
    namespaces below hold methods only, under names that the program never
    reads as data. *)
Definition load_attr (v : value) (name : string) : M value :=
  fun w =>
    match v with
    | VRef a =>
        match heap_get a (heap w) with
        | Some (Instance _ dict) =>
            match assoc name dict with
            | Some x => (inr x, w)
            | None => attribute_error v name w
            end
        | _ => attribute_error v name w
        end
    | _ => attribute_error v name w
    end.

(** [v.name = x] *)
Definition store_attr (v : value) (name : string) (x : value) : M unit :=
  fun w =>
    match v with
    | VRef a =>
        match heap_get a (heap w) with
        | Some (Instance cls dict) =>
            heap_put a (Instance cls (assoc_set name x dict)) w
        | _ => attribute_error v name w
        end
    | _ => attribute_error v name w
    end.

(** ** Calls with keyword arguments *)

(** [f( **v )]: the operand must be a mapping with string keys. *)
Definition unpack_mapping (v : value) : M kwargs :=
  match v with
  | VDict items => ret items
  | _ => raise (TypeError "argument after ** must be a mapping")
  end.

(** [f( **kw, k1=v1, k2=v2 )]: a keyword given twice is an error. *)
Fixpoint merge_keywords (kw extra : kwargs) : exn + kwargs :=
  match extra with
  | [] => inr kw
  | (k, v) :: rest =>
      if has_key k kw
      then inl (TypeError ("got multiple values for keyword argument " ++ k))
      else merge_keywords (kw ++ [(k, v)]) rest
  end.

Definition missing_in (kw : kwargs) (p : string * option value) : bool :=
  match snd p with
  | None => negb (has_key (fst p) kw)
  | Some _ => false
  end.

Definition bound_value (kw : kwargs) (p : string * option value) : value :=
  match assoc (fst p) kw with
  | Some v => v
  | None => match snd p with Some d => d | None => VNone end
  end.

(** Binding keyword arguments to a keyword-accepting parameter list: an
    unknown keyword is rejected first, then a parameter without default that
    got no value; otherwise every parameter gets its argument or default. *)
Definition bind_signature (sig : list (string * option value)) (kw : kwargs)
  : exn + kwargs :=
  match find (fun a => negb (has_key (fst a) sig)) kw with
  | Some (k, _) =>
      inl (TypeError ("got an unexpected keyword argument " ++ k))
  | None =>
      match filter (missing_in kw) sig with
      | [] => inr (map (fun p => (fst p, bound_value kw p)) sig)
      | (k, _) :: _ =>
          inl (TypeError ("missing required argument " ++ k))
      end
  end.

(** ** The library calls *)

Definition consult : M unit :=
  fun w =>
    match outcome (library w) (trace w) with
    | Some e => (inl e, w)
    | None => (inr tt, w)
    end.

(** [URL.create( **kw )] *)
Definition URL_create (kw : kwargs) : M value :=
  emit (URL_create_call kw) ;;
  sig <- (fun w => ret (URL_create_signature (library w)) w) ;;
  components <- lift (bind_signature sig kw) ;;
  consult ;;
  ret (VUrl components).

(** [create_async_engine(url, **kw)]: [url] is the one named parameter. *)
Definition create_async_engine (url : value) (kw : kwargs) : M value :=
  id <- emit (create_async_engine_call url kw) ;;
  (if has_key "url" kw
   then raise (TypeError "got multiple values for argument url")
   else ret tt) ;;
  consult ;;
  ret (VEngine id).

(** [async_sessionmaker( **kw )] *)
Definition async_sessionmaker (kw : kwargs) : M value :=
  id <- emit (async_sessionmaker_call kw) ;;
  consult ;;
  ret (VSessionFactory id).

Inductive session_op : Type := Commit | Rollback | Close.

Definition session_op_of (name : string) : option session_op :=
  if String.eqb name "commit" then Some Commit
  else if String.eqb name "rollback" then Some Rollback
  else if String.eqb name "close" then Some Close
  else None.

Definition session_event (op : session_op) (s : nat) : event :=
  match op with
  | Commit => session_commit s
  | Rollback => session_rollback s
  | Close => session_close s
  end.

(** ** Classes and method resolution *)

Inductive method : Type :=
| DatabaseSession_init
| DatabaseSession_create_url
| DatabaseSession_create_async_engine
| DatabaseSession_create_async_session_factory
| DatabaseSession_precreate_async_session
| DatabaseSession_create_async_session
| DatabaseSession_open_async_session
| SessionContextManager_init
| SessionContextManager_aenter
| SessionContextManager_aexit
| SessionContextManager_commit
| SessionContextManager_rollback.

Record class : Type := mkClass {
  bases : list string;
  namespace : list (string * method)
}.

(** A class body binds each [def] under its name as written, mangled when
    private. *)
Definition class_body (cls : string) (defs : list (string * method))
  : list (string * method) :=
  map (fun d => (mangle cls (fst d), snd d)) defs.

Definition classes : list (string * class) :=
  [ ("DatabaseSession",
      {| bases := [];
         namespace := class_body "DatabaseSession"
           [ ("__init__", DatabaseSession_init);
             ("__create_url", DatabaseSession_create_url);
             ("__create_async_engine", DatabaseSession_create_async_engine);
             ("__create_async_session_factory",
               DatabaseSession_create_async_session_factory);
             ("__precreate_async_session",
               DatabaseSession_precreate_async_session);
             ("create_async_session", DatabaseSession_create_async_session);
             ("open_async_session", DatabaseSession_open_async_session) ] |});
    ("SessionContextManager",
      {| bases := ["DatabaseSession"];
         namespace := class_body "SessionContextManager"
           [ ("__init__", SessionContextManager_init);
             ("__aenter__", SessionContextManager_aenter);
             ("__aexit__", SessionContextManager_aexit);
             ("commit", SessionContextManager_commit);
             ("rollback", SessionContextManager_rollback) ] |}) ].

(** The method resolution order; the classes here inherit from one base at
    most.  [object] and the classes of other modules define none of the names
    the program looks up. *)
Fixpoint mro_from (fuel : nat) (cls : string) : list string :=
  match fuel with
  | 0 => []
  | S n =>
      match assoc cls classes with
      | Some c =>
          cls :: match bases c with
                 | b :: _ => mro_from n b
                 | [] => []
                 end
      | None => []
      end
  end.

Definition mro (cls : string) : list string :=
  mro_from (List.length classes) cls.

Fixpoint find_in_mro (name : string) (order : list string) : option method :=
  match order with
  | [] => None
  | c :: rest =>
      match assoc c classes with
      | Some k =>
          match assoc name (namespace k) with
          | Some m => Some m
          | None => find_in_mro name rest
          end
      | None => find_in_mro name rest
      end
  end.

Definition find_method (cls name : string) : option method :=
  find_in_mro name (mro cls).

(** What an attribute in call position evaluates to. *)
Inductive callee : Type :=
| BoundMethod (self : value) (m : method)
| SessionMethod (session : nat) (op : session_op)
| Plain (v : value).

(** [v.name] about to be called: the instance dictionary first, then the
    classes along the resolution order. *)
Definition load_callee (v : value) (name : string) : M callee :=
  fun w =>
    match v with
    | VRef a =>
        match heap_get a (heap w) with
        | Some (Instance cls dict) =>
            match assoc name dict with
            | Some x => (inr (Plain x), w)
            | None =>
                match find_method cls name with
                | Some m => (inr (BoundMethod v m), w)
                | None => attribute_error v name w
                end
            end
        | _ => attribute_error v name w
        end
    | VSession s =>
        match session_op_of name with
        | Some op => (inr (SessionMethod s op), w)
        | None => attribute_error v name w
        end
    | _ => attribute_error v name w
    end.

Definition not_callable {A} (v : value) : M A :=
  fun w => (inl (TypeError (type_name v w ++ " object is not callable")), w).

Definition arity_error {A} : M A :=
  raise (TypeError "wrong number of positional arguments").

(** Calling a callee; [await] of the coroutine a call returns is the call
    run to completion, the interleaving of other tasks is not modelled. *)
Definition call_with (run : method -> value -> list value -> M value)
  (c : callee) (args : list value) : M value :=
  match c with
  | BoundMethod self m => run m self args
  | SessionMethod s op =>
      match args with
      | [] => emit (session_event op s) ;; consult ;; ret VNone
      | _ => arity_error
      end
  | Plain (VSessionFactory f) =>
      match args with
      | [] => id <- emit (session_factory_call f) ;; consult ;;
              ret (VSession id)
      | _ => arity_error
      end
  | Plain v => not_callable v
  end.

(** ** [app/core/config.py] *)

Module Settings.

(** The class body, run once when the module is imported.  [file] is
    [Path(__file__).resolve()].  The fields are the class-body defaults;
    overriding them from the process environment is the settings library's
    doing and is not modelled. *)
Definition class_body (file : Path) : M (list (string * value)) :=
  let PROJECT_NAME := "Sethub" in
  let MAIN_PATH := parent (parent (parent (parent file))) in
  emit (Print ("MAIN_PATH: " ++ Path_str MAIN_PATH)) ;;
  let APP_PATH := (MAIN_PATH / Path_of "app")%path in
  let MEDIA_FOLDER := Path_of "media" in
  let MEDIA_PATH := (MAIN_PATH / MEDIA_FOLDER)%path in
  let STATIC_FOLDER_NAME := Path_of "frontend/static" in
  let STATIC_FOLDER := (MAIN_PATH / STATIC_FOLDER_NAME)%path in
  let TEMPLATES_FOLDER_NAME := Path_of "frontend/templates" in
  let TEMPLATES_FOLDER := (MAIN_PATH / TEMPLATES_FOLDER_NAME)%path in
  ret [ ("PROJECT_NAME", VStr PROJECT_NAME);
        ("MAIN_PATH", VPath MAIN_PATH);
        ("APP_PATH", VPath APP_PATH);
        ("MEDIA_FOLDER", VPath MEDIA_FOLDER);
        ("MEDIA_PATH", VPath MEDIA_PATH);
        ("STATIC_FOLDER_NAME", VPath STATIC_FOLDER_NAME);
        ("STATIC_FOLDER", VPath STATIC_FOLDER);
        ("TEMPLATES_FOLDER_NAME", VPath TEMPLATES_FOLDER_NAME);
        ("TEMPLATES_FOLDER", VPath TEMPLATES_FOLDER) ].

(** Importing the module: the class body, then [settings = Settings()]. *)
Definition import_module (file : Path) : M value :=
  fields <- class_body file ;;
  settings <- alloc (Instance "Settings" fields) ;;
  (fun w => (inr tt, with_config_settings settings w)) ;;
  ret settings.

End Settings.

(** ** [app/database/session.py] *)

Module DatabaseSession.
Section Methods.
(** how a callee is called from inside a method body *)
Variable call : callee -> list value -> M value.

Definition __init__ (self : value) (args : list value) : M value :=
  settings <- match args with
              | [] => fun w => ret (config_settings w) w
              | [s] => ret s
              | _ => arity_error
              end ;;
  db <- load_attr settings "db" ;;
  url_params <- load_attr db "params" ;;
  store_attr self "url_params" url_params ;;
  engine <- load_attr settings "engine" ;;
  engine_params <- load_attr engine "params" ;;
  store_attr self "engine_params" engine_params ;;
  session <- load_attr settings "session" ;;
  sessionmaker_params <- load_attr session "params" ;;
  store_attr self "sessionmaker_params" sessionmaker_params ;;
  ret VNone.

Definition __create_url (self : value) (args : list value) : M value :=
  match args with
  | [url_params] =>
      kw <- unpack_mapping url_params ;;
      url <- URL_create kw ;;
      ret url
  | _ => arity_error
  end.

Definition __create_async_engine (self : value) (args : list value)
  : M value :=
  match args with
  | [url; engine_params] =>
      kw <- unpack_mapping engine_params ;;
      async_engine <- create_async_engine url kw ;;
      ret async_engine
  | _ => arity_error
  end.

Definition __create_async_session_factory (self : value)
  (args : list value) : M value :=
  match args with
  | [async_engine; sessionmaker_params] =>
      kw <- unpack_mapping sessionmaker_params ;;
      kw' <- lift (merge_keywords kw [ ("class_", VClass "AsyncSession");
                                       ("bind", async_engine) ]) ;;
      async_session_factory <- async_sessionmaker kw' ;;
      ret async_session_factory
  | _ => arity_error
  end.

Definition __precreate_async_session (self : value) (args : list value)
  : M value :=
  match args with
  | [] =>
      f <- load_callee self (mangle "DatabaseSession" "__create_url") ;;
      url_params <- load_attr self "url_params" ;;
      url <- call f [url_params] ;;
      g <- load_callee self
             (mangle "DatabaseSession" "__create_async_engine") ;;
      engine_params <- load_attr self "engine_params" ;;
      async_engine <- call g [url; engine_params] ;;
      h <- load_callee self
             (mangle "DatabaseSession" "__create_async_session_factory") ;;
      sessionmaker_params <- load_attr self "sessionmaker_params" ;;
      session <- call h [async_engine; sessionmaker_params] ;;
      ret session
  | _ => arity_error
  end.

(** [create_async_session] is a generator function: the call only makes
    the generator object. *)
Definition create_async_session (self : value) (args : list value)
  : M value :=
  match args with
  | [] => alloc (Generator self GEN_CREATED)
  | _ => arity_error
  end.

(** The function under the [@contextmanager] decorator. *)
Definition open_async_session_undecorated (self : value)
  (args : list value) : M value :=
  match args with
  | [] =>
      f <- load_callee self "create_async_session" ;;
      call f []
  | _ => arity_error
  end.

End Methods.
End DatabaseSession.

(** How a generator is resumed, and what a resumption comes to. *)
Inductive resumption : Type := Next | Throw (e : exn).
Inductive step : Type := Yield (state : gen_state) (v : value) | Return.

Module create_async_session_generator.
Section Body.
Variable call : callee -> list value -> M value.

(** The body of [DatabaseSession.create_async_session], from the point
    where the generator stands to its next [yield] or its end.  No
    [try] encloses the [yield]: an exception thrown in leaves at once. *)
Definition resume (self : value) (state : gen_state) (r : resumption)
  : M step :=
  match state, r with
  | GEN_CREATED, Next =>
      f <- load_callee self
             (mangle "DatabaseSession" "__precreate_async_session") ;;
      session <- call f [] ;;
      ret (Yield GEN_SUSPENDED session)
  | GEN_SUSPENDED, Next => ret Return
  | GEN_CLOSED, Next => ret Return
  | _, Throw e => raise e
  end.
End Body.
End create_async_session_generator.

Module SessionContextManager.
Section Methods.
Variable call : callee -> list value -> M value.

Definition __init__ (self : value) (args : list value) : M value :=
  match args with
  | [] =>
      f <- load_callee self
             (mangle "SessionContextManager" "__precreate_async_session") ;;
      session_factory <- call f [] ;;
      store_attr self "session_factory" session_factory ;;
      store_attr self "session" VNone ;;
      ret VNone
  | _ => arity_error
  end.

Definition __aenter__ (self : value) (args : list value) : M value :=
  match args with
  | [] =>
      f <- load_callee self "session_factory" ;;
      session <- call f [] ;;
      store_attr self "session" session ;;
      ret VNone
  | _ => arity_error
  end.

Definition rollback (self : value) (args : list value) : M value :=
  match args with
  | [] =>
      s <- load_attr self "session" ;;
      f <- load_callee s "rollback" ;;
      call f [] ;;
      s' <- load_attr self "session" ;;
      g <- load_callee s' "close" ;;
      call g [] ;;
      store_attr self "session" VNone ;;
      ret VNone
  | _ => arity_error
  end.

Definition commit (self : value) (args : list value) : M value :=
  match args with
  | [] =>
      s <- load_attr self "session" ;;
      f <- load_callee s "commit" ;;
      call f [] ;;
      s' <- load_attr self "session" ;;
      g <- load_callee s' "close" ;;
      call g [] ;;
      store_attr self "session" VNone ;;
      ret VNone
  | _ => arity_error
  end.

(** [__aexit__(self, *args)] takes whatever it is given. *)
Definition __aexit__ (self : value) (args : list value) : M value :=
  f <- load_callee self "rollback" ;;
  call f [] ;;
  ret VNone.

End Methods.
End SessionContextManager.

(** ** [contextlib.contextmanager] *)

Module contextlib.
Section Protocol.
Variable resume_generator : value -> resumption -> M value.

(** The decorated function: calls the function and wraps what it got. *)
Definition contextmanager (func : M value) : M value :=
  gen <- func ;;
  alloc (GeneratorContextManager gen).

Definition gen_of (cm : value) : M value :=
  fun w =>
    match cm with
    | VRef a =>
        match heap_get a (heap w) with
        | Some (GeneratorContextManager gen) => (inr gen, w)
        | _ => attribute_error cm "__enter__" w
        end
    | _ => attribute_error cm "__enter__" w
    end.

Definition __enter__ (cm : value) : M value :=
  gen <- gen_of cm ;;
  r <- attempt (resume_generator gen Next) ;;
  match r with
  | inr v => ret v
  | inl StopIteration => raise (RuntimeError "generator didn't yield")
  | inl e => raise e
  end.

(** [__exit__(typ, value, traceback)]; [exc] is the exception that left
    the body, if one did.  The result says whether it is swallowed.
    Identity of exception objects is read as equality. *)
Definition __exit__ (cm : value) (exc : option exn) : M value :=
  gen <- gen_of cm ;;
  match exc with
  | None =>
      r <- attempt (resume_generator gen Next) ;;
      match r with
      | inl StopIteration => ret (VBool false)
      | inl e => raise e
      | inr _ => raise (RuntimeError "generator didn't stop")
      end
  | Some value =>
      r <- attempt (resume_generator gen (Throw value)) ;;
      match r with
      | inl StopIteration => ret (VBool (negb (exn_eqb StopIteration value)))
      | inl (RuntimeError msg) =>
          if exn_eqb (RuntimeError msg) value then ret (VBool false)
          else if exn_eqb value StopIteration
                  && String.eqb msg "generator raised StopIteration"
               then ret (VBool false)
               else raise (RuntimeError msg)
      | inl e => if exn_eqb e value then ret (VBool false) else raise e
      | inr _ => raise (RuntimeError "generator didn't stop after throw()")
      end
  end.
End Protocol.
End contextlib.

(** ** Running methods *)

(** [exec depth m self args] runs method [m] on [self].  [depth] bounds the
    nesting of method calls, as the interpreter's recursion limit does. *)
Fixpoint exec (depth : nat) (m : method) (self : value) (args : list value)
  {struct depth} : M value :=
  match depth with
  | 0 => raise RecursionError
  | S d =>
      let call := call_with (exec d) in
      match m with
      | DatabaseSession_init => DatabaseSession.__init__ self args
      | DatabaseSession_create_url => DatabaseSession.__create_url self args
      | DatabaseSession_create_async_engine =>
          DatabaseSession.__create_async_engine self args
      | DatabaseSession_create_async_session_factory =>
          DatabaseSession.__create_async_session_factory self args
      | DatabaseSession_precreate_async_session =>
          DatabaseSession.__precreate_async_session call self args
      | DatabaseSession_create_async_session =>
          DatabaseSession.create_async_session self args
      | DatabaseSession_open_async_session =>
          contextlib.contextmanager
            (DatabaseSession.open_async_session_undecorated call self args)
      | SessionContextManager_init =>
          SessionContextManager.__init__ call self args
      | SessionContextManager_aenter =>
          SessionContextManager.__aenter__ call self args
      | SessionContextManager_aexit =>
          SessionContextManager.__aexit__ call self args
      | SessionContextManager_commit =>
          SessionContextManager.commit call self args
      | SessionContextManager_rollback =>
          SessionContextManager.rollback call self args
      end
  end.

Definition call (depth : nat) : callee -> list value -> M value :=
  call_with (exec depth).

(** [recv.name( *args )] *)
Definition invoke (depth : nat) (recv : value) (name : string)
  (args : list value) : M value :=
  f <- load_callee recv name ;;
  call depth f args.

(** [cls( *args )] for a class of [session.py]: a fresh instance, then its
    [__init__]. *)
Definition construct (depth : nat) (cls : string) (args : list value)
  : M value :=
  obj <- alloc (Instance cls []) ;;
  invoke depth obj "__init__" args ;;
  ret obj.

(** [next] and [throw] on what is no generator. *)
Definition not_a_generator {A} (v : value) (r : resumption) : M A :=
  match r with
  | Next =>
      fun w =>
        (inl (TypeError (type_name v w ++ " object is not an iterator")), w)
  | Throw _ => attribute_error v "throw"
  end.

(** Resuming a generator object: [next(gen)] or [gen.throw(e)].  The body
    runs in a frame of its own; when it ends or raises the generator is
    closed, and a [StopIteration] that escapes the body becomes a
    [RuntimeError]. *)
Definition resume_generator (depth : nat) (gen : value) (r : resumption)
  : M value :=
  fun w =>
    match gen with
    | VRef a =>
        match heap_get a (heap w) with
        | Some (Generator self state) =>
            match depth with
            | 0 => (inl RecursionError, w)
            | S d =>
                match create_async_session_generator.resume (call d)
                        self state r w with
                | (inr (Yield state' v), w') =>
                    (inr v, with_heap ((a, Generator self state') :: heap w') w')
                | (inr Return, w') =>
                    (inl StopIteration,
                     with_heap ((a, Generator self GEN_CLOSED) :: heap w') w')
                | (inl StopIteration, w') =>
                    (inl (RuntimeError "generator raised StopIteration"),
                     with_heap ((a, Generator self GEN_CLOSED) :: heap w') w')
                | (inl e, w') =>
                    (inl e,
                     with_heap ((a, Generator self GEN_CLOSED) :: heap w') w')
                end
            end
        | _ => not_a_generator gen r w
        end
    | _ => not_a_generator gen r w
    end.

Definition next (depth : nat) (gen : value) : M value :=
  resume_generator depth gen Next.

Definition truthy (v : value) : bool :=
  match v with
  | VNone => false
  | VBool b => b
  | VInt z => negb (Z.eqb z 0)
  | VStr s => negb (String.eqb s "")
  | VDict items => match items with [] => false | _ => true end
  | _ => true
  end.

(** [with mgr as x: body] for the context managers of [contextlib]. *)
Definition with_statement (depth : nat) (mgr : M value)
  (body : value -> M value) : M value :=
  cm <- mgr ;;
  x <- contextlib.__enter__ (resume_generator depth) cm ;;
  r <- attempt (body x) ;;
  match r with
  | inr v => contextlib.__exit__ (resume_generator depth) cm None ;; ret v
  | inl e =>
      swallow <- contextlib.__exit__ (resume_generator depth) cm (Some e) ;;
      if truthy swallow then ret VNone else raise e
  end.

(** Special methods are looked up on the type, past the instance
    dictionary. *)
Definition load_special (v : value) (name : string) : M callee :=
  fun w =>
    match v with
    | VRef a =>
        match heap_get a (heap w) with
        | Some (Instance cls _) =>
            match find_method cls name with
            | Some m => (inr (BoundMethod v m), w)
            | None => (inl (TypeError (cls ++ " object does not support the asynchronous context manager protocol")), w)
            end
        | _ => (inl (TypeError "object does not support the asynchronous context manager protocol"), w)
        end
    | _ => (inl (TypeError "object does not support the asynchronous context manager protocol"), w)
    end.

(** [async with mgr as x: body]: [__aexit__] gets the exception that left
    the body, or three [None]; a false result lets the exception go on. *)
Definition async_with (depth : nat) (mgr : value) (body : value -> M value)
  : M value :=
  enter <- load_special mgr "__aenter__" ;;
  exit <- load_special mgr "__aexit__" ;;
  x <- call depth enter [] ;;
  r <- attempt (body x) ;;
  match r with
  | inr v => call depth exit [VNone; VNone; VNone] ;; ret v
  | inl e =>
      swallow <- call depth exit [VClass (exn_class e); VException e; VNone] ;;
      if truthy swallow then ret VNone else raise e
  end.

(** ** The world at start *)

Definition empty_world (lib : Library) : world :=
  {| heap := []; trace := []; config_settings := VNone; library := lib |}.

(** The world once [app.core.config] has been imported from [file]. *)
Definition booted (lib : Library) (file : Path) : world :=
  snd (Settings.import_module file (empty_world lib)).

(** ** Callers *)

(** What code using the two modules can do: make objects of its own (a
    settings object, say), instantiate the classes, call methods (special
    methods as [async with] calls them, through the type), step generators,
    enter and leave context managers. *)
Inductive operation : Type :=
| Allocate (c : cell)
| Construct (cls : string) (args : list value)
| Invoke (recv : value) (name : string) (args : list value)
| InvokeSpecial (recv : value) (name : string) (args : list value)
| NextOf (gen : value)
| Enter (cm : value)
| Exit (cm : value) (exc : option exn).

Definition run_operation (depth : nat) (op : operation) : M value :=
  match op with
  | Allocate c => alloc c
  | Construct cls args => construct depth cls args
  | Invoke recv name args => invoke depth recv name args
  | InvokeSpecial recv name args =>
      f <- load_special recv name ;; call depth f args
  | NextOf gen => next depth gen
  | Enter cm => contextlib.__enter__ (resume_generator depth) cm
  | Exit cm exc => contextlib.__exit__ (resume_generator depth) cm exc
  end.

(** A caller's run: one operation after the other, whatever each one comes
    to. *)
Fixpoint run_operations (depth : nat) (ops : list operation) (w : world)
  : world :=
  match ops with
  | [] => w
  | op :: rest => run_operations depth rest (snd (run_operation depth op w))
  end.

(** The library lets each of [calls], made in this order after [history],
    return. *)
Fixpoint calls_return (lib : Library) (history calls : list event) : Prop :=
  match calls with
  | [] => True
  | ev :: rest =>
      outcome lib (history ++ [ev]) = None
      /\ calls_return lib (history ++ [ev]) rest
  end.

(** The instance at [a] as [DatabaseSession.__init__] leaves it. *)
Definition database_session_at (a : nat) (cls : string)
  (url_params engine_params sessionmaker_params : value) (w : world) : Prop :=
  heap_get a (heap w) =
    Some (Instance cls [ ("url_params", url_params);
                         ("engine_params", engine_params);
                         ("sessionmaker_params", sessionmaker_params) ])
  /\ (cls = "DatabaseSession" \/ cls = "SessionContextManager").

(** [settings.section.params], when both attributes are there. *)
Definition params_of (settings : value) (section : string)
  (h : list (nat * cell)) : option value :=
  match settings with
  | VRef a =>
      match heap_get a h with
      | Some (Instance _ dict) =>
          match assoc section dict with
          | Some (VRef b) =>
              match heap_get b h with
              | Some (Instance _ dict') => assoc "params" dict'
              | _ => None
              end
          | _ => None
          end
      | _ => None
      end
  | _ => None
  end.

(** The three library calls of [__precreate_async_session], made after [n]
    earlier calls: the URL from the URL parameters, the engine from that URL
    and the engine parameters, the session factory from the session-maker
    parameters, [AsyncSession] and that engine. *)
Definition precreate_calls (n : nat) (url_params components engine_params
  sessionmaker_params : kwargs) : list event :=
  [ URL_create_call url_params;
    create_async_engine_call (VUrl components) engine_params;
    async_sessionmaker_call
      (sessionmaker_params
         ++ [ ("class_", VClass "AsyncSession"); ("bind", VEngine (n + 1)) ]) ].

(** The heap with one more object, and where that object went. *)
Definition allocated (c : cell) (w : world) : world :=
  with_heap ((fresh (heap w), c) :: heap w) w.

(** ** Predicates on worlds *)

(** The settings object is at [sa], with these fields, and the module
    global [settings] refers to it. *)
Definition settings_intact_at (sa : nat) (fields : list (string * value))
  (w : world) : Prop :=
  config_settings w = VRef sa
  /\ heap_get sa (heap w) = Some (Instance "Settings" fields).

Definition keeps_settings (sa : nat) (fields : list (string * value))
  {A} (m : M A) (post : A -> Prop) : Prop :=
  forall w, settings_intact_at sa fields w ->
            settings_intact_at sa fields (snd (m w))
            /\ forall a, fst (m w) = inr a -> post a.

Definition anything {A} : A -> Prop := fun _ => True.

(** A callee that is not a method bound to the object at [sa]. *)
Definition callee_avoids (sa : nat) (c : callee) : Prop :=
  match c with
  | BoundMethod self _ => self <> VRef sa
  | _ => True
  end.

(** [w'] is [w] with a new [DatabaseSession] instance of dictionary [d] at
    the fresh address, and nothing else changed. *)
Definition extends (w : world) (d : list (string * value)) (w' : world)
  : Prop :=
  heap_get (fresh (heap w)) (heap w') = Some (Instance "DatabaseSession" d)
  /\ (forall a, a <> fresh (heap w) ->
                heap_get a (heap w') = heap_get a (heap w))
  /\ trace w' = trace w.

(** A dictionary without the attributes that [__init__] reads from a
    settings object. *)
Definition inert (d : list (string * value)) : Prop :=
  assoc "db" d = None /\ assoc "engine" d = None
  /\ assoc "session" d = None /\ assoc "params" d = None.

Definition is_section (sec : string) : Prop :=
  sec = "db" \/ sec = "engine" \/ sec = "session".

(** A value that [**] cannot unpack: neither a dictionary nor an object
    that might bring the mapping protocol of its own. *)
Definition not_a_mapping (v : value) : Prop :=
  match v with
  | VDict _ | VRef _ => False
  | _ => True
  end.

(** The instance of [SessionContextManager] at [a], with instance dictionary
    [dict]; no attribute of the instance hides a method of the class. *)
Definition wrapper_at (a : nat) (dict : list (string * value)) (w : world)
  : Prop :=
  heap_get a (heap w) = Some (Instance "SessionContextManager" dict)
  /\ forall name, has_key name dict = true ->
                  find_method "SessionContextManager" name = None.

(** The wrapper at [a] with its session reference cleared, after [calls]. *)
Definition detached (a : nat) (dict : list (string * value))
  (calls : list event) (w : world) : world :=
  with_heap
    ((a, Instance "SessionContextManager" (assoc_set "session" VNone dict))
       :: heap w)
    (with_trace (trace w ++ calls) w).

(** The wrapper at [a] once [__aenter__] has attached a new session made by
    factory [f]. *)
Definition entered (a : nat) (dict : list (string * value)) (f : nat)
  (w : world) : world :=
  with_heap
    ((a, Instance "SessionContextManager"
           (assoc_set "session" (VSession (List.length (trace w))) dict))
       :: heap w)
    (with_trace (trace w ++ [session_factory_call f]) w).

(** ** Sample worlds *)

(** SQLAlchemy as documented, with every call returning: [URL.create] takes
    [drivername] and six optional parameters. *)
Definition sqlalchemy : Library :=
  {| URL_create_signature :=
       [ ("drivername", None); ("username", Some VNone);
         ("password", Some VNone); ("host", Some VNone);
         ("port", Some VNone); ("database", Some VNone);
         ("query", Some (VDict [])) ];
     outcome := fun _ => None |}.

Definition config_py : Path := Path_of "/srv/sethub/backend/app/core/config.py".

Definition sample_url_params : kwargs :=
  [ ("drivername", VStr "postgresql+asyncpg"); ("username", VStr "sethub");
    ("password", VStr "secret"); ("host", VStr "localhost");
    ("port", VInt 5432); ("database", VStr "sethub") ].

Definition sample_engine_params : kwargs := [ ("echo", VBool true) ].

Definition sample_sessionmaker_params : kwargs :=
  [ ("autocommit", VBool false); ("autoflush", VBool false);
    ("expire_on_commit", VBool false) ].

(** A settings object of the kind the session module expects, with [db],
    [engine] and [session] sections that each carry [params]. *)
Definition make_settings (url_params engine_params sessionmaker_params : value)
  : M value :=
  db <- alloc (Instance "DatabaseSettings" [("params", url_params)]) ;;
  engine <- alloc (Instance "EngineSettings" [("params", engine_params)]) ;;
  session <- alloc (Instance "SessionSettings" [("params", sessionmaker_params)]) ;;
  alloc (Instance "AppSettings"
           [("db", db); ("engine", engine); ("session", session)]).

Definition sample_settings : M value :=
  make_settings (VDict sample_url_params) (VDict sample_engine_params)
    (VDict sample_sessionmaker_params).

(** A [DatabaseSession] made from the sample settings, and the URL
    components its parameters come to. *)
Definition sample_database_session_world : world :=
  snd ((s <- sample_settings ;; construct 1 "DatabaseSession" [s])
         (booted sqlalchemy config_py)).

Definition sample_url_components : kwargs :=
  sample_url_params ++ [ ("query", VDict []) ].

(** A [DatabaseSession] whose URL parameters lack the driver name. *)
Definition incomplete_url_params : kwargs := [ ("host", VStr "localhost") ].

Definition incomplete_world : world :=
  with_heap
    [ (1, Instance "DatabaseSession"
            [ ("url_params", VDict incomplete_url_params);
              ("engine_params", VDict sample_engine_params);
              ("sessionmaker_params", VDict sample_sessionmaker_params) ]) ]
    (empty_world sqlalchemy).

(** A wrapper that was given a session factory by hand ([__init__] cannot
    do it, see below), not entered yet. *)
Definition sample_wrapper : list (string * value) :=
  [ ("session_factory", VSessionFactory 0); ("session", VNone) ].

Definition sample_wrapper_world : world :=
  with_heap [ (1, Instance "SessionContextManager" sample_wrapper) ]
    (with_trace [ async_sessionmaker_call [] ] (empty_world sqlalchemy)).

(** ... and the same once entered. *)
Definition entered_wrapper_world : world :=
  snd (invoke 1 (VRef 1) "__aenter__" [] sample_wrapper_world).

(** A library in which every call raises [e], and the entered wrapper in
    front of it. *)
Definition refusing (e : exn) : Library :=
  {| URL_create_signature := URL_create_signature sqlalchemy;
     outcome := fun _ => Some e |}.

Definition refused_wrapper_world : world :=
  {| heap := heap entered_wrapper_world;
     trace := trace entered_wrapper_world;
     config_settings := VNone;
     library := refusing (LibraryError 1) |}.

(** The sample [DatabaseSession] with the generator of
    [create_async_session] standing at its [yield]. *)
Definition suspended_generator_world : world :=
  snd (next 3 (VRef 7)
         (allocated (Generator (VRef 6) GEN_CREATED)
            sample_database_session_world)).

(** A [DatabaseSession] at address 1 that holds the given parameters, in
    front of library [lib]. *)
Definition database_session_world (lib : Library) (up ep sp : value) : world :=
  with_heap
    [ (1, Instance "DatabaseSession"
            [ ("url_params", up); ("engine_params", ep);
              ("sessionmaker_params", sp) ]) ]
    (empty_world lib).

(** Session-maker parameters that name [bind] themselves. *)
Definition clashing_sessionmaker_params : kwargs :=
  [ ("expire_on_commit", VBool false); ("bind", VNone) ].

Definition clashing_world : world :=
  database_session_world sqlalchemy (VDict sample_url_params)
    (VDict sample_engine_params) (VDict clashing_sessionmaker_params).

(** An installation in which no engine can be created, the driver being
    absent, say. *)
Definition without_driver : Library :=
  {| URL_create_signature := URL_create_signature sqlalchemy;
     outcome := fun calls =>
       match last calls (Print "") with
       | create_async_engine_call _ _ => Some (LibraryError 2)
       | _ => None
       end |}.

Definition without_driver_world : world :=
  database_session_world without_driver (VDict sample_url_params)
    (VDict sample_engine_params) (VDict sample_sessionmaker_params).

(** A [DatabaseSession] made from settings whose parameters were never
    filled in. *)
Definition unset_world : world :=
  database_session_world sqlalchemy VNone VNone VNone.

(** A library in which closing a session raises, and the entered wrapper
    in front of it. *)
Definition failing_close : Library :=
  {| URL_create_signature := URL_create_signature sqlalchemy;
     outcome := fun calls =>
       match last calls (Print "") with
       | session_close _ => Some (LibraryError 3)
       | _ => None
       end |}.

Definition failing_close_world : world :=
  {| heap := heap entered_wrapper_world;
     trace := trace entered_wrapper_world;
     config_settings := VNone;
     library := failing_close |}.

(** The wrapper, not entered, in front of the library that refuses every
    call. *)
Definition refused_factory_world : world :=
  {| heap := heap sample_wrapper_world;
     trace := trace sample_wrapper_world;
     config_settings := VNone;
     library := refusing (LibraryError 1) |}.

(** * Properties *)

(** ** Reasoning about runs *)

Ltac use_hyps :=
  repeat match goal with
         | H : ?l = _ |- context [?l] => rewrite H
         end.

Ltac py_unfold :=
  unfold invoke, construct, call, next,
    SessionContextManager.commit, SessionContextManager.rollback,
    SessionContextManager.__aexit__, SessionContextManager.__aenter__,
    SessionContextManager.__init__,
    DatabaseSession.__init__, DatabaseSession.__create_url,
    DatabaseSession.__create_async_engine,
    DatabaseSession.__create_async_session_factory,
    DatabaseSession.__precreate_async_session,
    DatabaseSession.create_async_session,
    DatabaseSession.open_async_session_undecorated,
    contextlib.contextmanager,
    bind, ret, raise, lift, attempt, consult, emit, alloc, heap_put,
    load_attr, store_attr, load_callee, load_special, call_with,
    attribute_error, not_callable, arity_error.

Ltac py_run :=
  repeat first [ progress (cbn [exec]; py_unfold; simpl)
               | progress use_hyps ].

Lemma bind_inr {A B} (m : M A) (f : A -> M B) w a w' :
  m w = (inr a, w') -> bind m f w = f a w'.
Proof. intros H. unfold bind. now rewrite H. Qed.

Lemma bind_inl {A B} (m : M A) (f : A -> M B) w e w' :
  m w = (inl e, w') -> bind m f w = (inl e, w').
Proof. intros H. unfold bind. now rewrite H. Qed.

Lemma load_attr_instance a cls dict name x w :
  heap_get a (heap w) = Some (Instance cls dict) ->
  assoc name dict = Some x ->
  load_attr (VRef a) name w = (inr x, w).
Proof. intros H1 H2. unfold load_attr. now rewrite H1, H2. Qed.

Lemma load_callee_method a cls dict name m w :
  heap_get a (heap w) = Some (Instance cls dict) ->
  assoc name dict = None ->
  find_method cls name = Some m ->
  load_callee (VRef a) name w = (inr (BoundMethod (VRef a) m), w).
Proof.
  intros Hcell Hfree Hfind. unfold load_callee.
  now rewrite Hcell, Hfree, Hfind.
Qed.

Lemma assoc_assoc_set_same {V} k (v : V) l :
  assoc k (assoc_set k v l) = Some v.
Proof.
  induction l as [|[k' v'] l IH]; simpl.
  - now rewrite String.eqb_refl.
  - destruct (String.eqb k k') eqn:E; simpl; rewrite ?String.eqb_refl, ?E; auto.
Qed.

Lemma has_key_assoc_set {V} k (v : V) l name :
  has_key name (assoc_set k v l) = true ->
  name = k \/ has_key name l = true.
Proof.
  unfold has_key. induction l as [|[k' v'] l IH]; simpl.
  - destruct (String.eqb name k) eqn:E; [apply String.eqb_eq in E; auto | discriminate].
  - destruct (String.eqb k k') eqn:E; simpl.
    + apply String.eqb_eq in E; subst k'.
      destruct (String.eqb name k) eqn:E'; auto.
    + destruct (String.eqb name k') eqn:E'; auto.
Qed.

Lemma not_hidden a dict w name m :
  wrapper_at a dict w ->
  find_method "SessionContextManager" name = Some m ->
  assoc name dict = None.
Proof.
  intros [_ Hfree] Hm. specialize (Hfree name). unfold has_key in Hfree.
  destruct (assoc name dict); [|reflexivity].
  rewrite Hfree in Hm by reflexivity. discriminate.
Qed.

Lemma wrapper_at_detached a dict calls w :
  wrapper_at a dict w ->
  wrapper_at a (assoc_set "session" VNone dict) (detached a dict calls w).
Proof.
  intros [Hcell Hfree]. split.
  - unfold detached; simpl. now rewrite Nat.eqb_refl.
  - intros name Hk. apply has_key_assoc_set in Hk as [-> | Hk]; auto.
Qed.

Lemma wrapper_method_runs (op : session_op) (m : method) d a cls dict s w :
  (op = Commit /\ m = SessionContextManager_commit)
  \/ (op = Rollback /\ m = SessionContextManager_rollback) ->
  heap_get a (heap w) = Some (Instance cls dict) ->
  assoc "session" dict = Some (VSession s) ->
  calls_return (library w) (trace w) [session_event op s; session_close s] ->
  exec (S d) m (VRef a) [] w =
    (inr VNone,
     with_heap ((a, Instance cls (assoc_set "session" VNone dict)) :: heap w)
       (with_trace (trace w ++ [session_event op s; session_close s]) w)).
Proof.
  intros Hop Hcell Hs (H1 & H2 & _).
  destruct Hop as [[-> ->] | [-> ->]]; simpl in H1, H2; py_run;
    rewrite <- app_assoc; reflexivity.
Qed.

Lemma wrapper_method_without_session (op : session_op) (m : method) name
  d a cls dict w :
  (op = Commit /\ m = SessionContextManager_commit /\ name = "commit")
  \/ (op = Rollback /\ m = SessionContextManager_rollback
      /\ name = "rollback") ->
  heap_get a (heap w) = Some (Instance cls dict) ->
  assoc "session" dict = Some VNone ->
  exec (S d) m (VRef a) [] w = (inl (AttributeError "NoneType" name), w).
Proof.
  intros Hop Hcell Hs.
  destruct Hop as [(-> & -> & ->) | (-> & -> & ->)]; py_run; reflexivity.
Qed.

Lemma sample_wrapper_free name :
  has_key name sample_wrapper = true ->
  find_method "SessionContextManager" name = None.
Proof.
  unfold has_key, sample_wrapper; simpl.
  destruct (String.eqb name "session_factory") eqn:E1.
  - apply String.eqb_eq in E1; subst; reflexivity.
  - destruct (String.eqb name "session") eqn:E2; [|discriminate].
    apply String.eqb_eq in E2; subst; reflexivity.
Qed.

Lemma entered_wrapper_at :
  wrapper_at 1 (assoc_set "session" (VSession 1) sample_wrapper)
    entered_wrapper_world.
Proof.
  split; [reflexivity|].
  intros name Hk. apply has_key_assoc_set in Hk as [-> | Hk].
  - reflexivity.
  - now apply sample_wrapper_free.
Qed.

(** ** The session wrapper's [commit] and [rollback] *)

Lemma invoke_method d a cls dict name m args w :
  heap_get a (heap w) = Some (Instance cls dict) ->
  assoc name dict = None ->
  find_method cls name = Some m ->
  invoke d (VRef a) name args w = exec d m (VRef a) args w.
Proof.
  intros Hcell Hfree Hfind. unfold invoke.
  now erewrite bind_inr by (eapply load_callee_method; eauto).
Qed.

Lemma invoke_wrapper_method d a dict s name op w :
  wrapper_at a dict w ->
  assoc "session" dict = Some (VSession s) ->
  (name = "commit" /\ op = Commit) \/ (name = "rollback" /\ op = Rollback) ->
  calls_return (library w) (trace w) [session_event op s; session_close s] ->
  invoke (S d) (VRef a) name [] w
  = (inr VNone, detached a dict [session_event op s; session_close s] w).
Proof.
  intros Hw Hs Hname Hlib.
  assert (Hcell := proj1 Hw).
  assert (Hm : exists m,
             find_method "SessionContextManager" name = Some m
             /\ ((op = Commit /\ m = SessionContextManager_commit)
                 \/ (op = Rollback /\ m = SessionContextManager_rollback))).
  { destruct Hname as [[-> ->] | [-> ->]]; eexists; split;
      try reflexivity; auto. }
  destruct Hm as (m & Hfind & Hop).
  pose proof (not_hidden _ _ _ _ _ Hw Hfind) as Hfree.
  rewrite (invoke_method _ _ _ _ _ _ _ _ Hcell Hfree Hfind).
  now apply wrapper_method_runs.
Qed.

(** C2. On a [SessionContextManager] instance with a session attached,
    [commit()] commits that session and then closes it, [rollback()] rolls it
    back and then closes it (the library letting both calls return); either
    way the call returns [None], nothing else is called, and the stored
    session reference is [None] afterwards, the instance being otherwise as
    it was. *)
Theorem commit_and_rollback_close_and_detach :
  forall d a dict s name op w,
    wrapper_at a dict w ->
    assoc "session" dict = Some (VSession s) ->
    (name = "commit" /\ op = Commit)
    \/ (name = "rollback" /\ op = Rollback) ->
    calls_return (library w) (trace w)
      [session_event op s; session_close s] ->
    let w' := detached a dict [session_event op s; session_close s] w in
    invoke (S d) (VRef a) name [] w = (inr VNone, w')
    /\ wrapper_at a (assoc_set "session" VNone dict) w'
    /\ load_attr (VRef a) "session" w' = (inr VNone, w').
Proof.
  intros d a dict s name op w Hw Hs Hname Hlib w'.
  split; [|split].
  - now apply invoke_wrapper_method.
  - now apply wrapper_at_detached.
  - unfold load_attr, w', detached; simpl.
    now rewrite Nat.eqb_refl, assoc_assoc_set_same.
Qed.

Lemma commit_and_rollback_close_and_detach_witness :
  invoke 1 (VRef 1) "commit" [] entered_wrapper_world
  = (inr VNone,
     detached 1 (assoc_set "session" (VSession 1) sample_wrapper)
       [session_commit 1; session_close 1] entered_wrapper_world).
Proof.
  apply (commit_and_rollback_close_and_detach 0 1
           (assoc_set "session" (VSession 1) sample_wrapper) 1
           "commit" Commit entered_wrapper_world).
  - exact entered_wrapper_at.
  - reflexivity.
  - left; split; reflexivity.
  - simpl; repeat split; reflexivity.
Defined.

(** C3. Once [commit()] has returned on a wrapper, a [rollback()] on the same
    wrapper, without the context being entered again, raises
    [AttributeError] for the missing session and leaves the world as it
    was: no call is made on any session. *)
Theorem rollback_after_commit_fails :
  forall d d' a dict s w,
    wrapper_at a dict w ->
    assoc "session" dict = Some (VSession s) ->
    calls_return (library w) (trace w) [session_commit s; session_close s] ->
    let w1 := snd (invoke (S d) (VRef a) "commit" [] w) in
    invoke (S d') (VRef a) "rollback" [] w1
    = (inl (AttributeError "NoneType" "rollback"), w1).
Proof.
  intros d d' a dict s w Hw Hs Hlib w1.
  pose proof (invoke_wrapper_method d a dict s "commit" Commit w Hw Hs
                (or_introl (conj eq_refl eq_refl)) Hlib) as Hrun.
  pose proof (wrapper_at_detached a dict [session_commit s; session_close s]
                w Hw) as Hw1.
  subst w1. rewrite Hrun. simpl snd.
  assert (Hcell := proj1 Hw1).
  pose proof (not_hidden _ _ _ "rollback" _ Hw1 eq_refl) as Hfree.
  rewrite (invoke_method _ _ _ _ _ _ _ _ Hcell Hfree eq_refl).
  eapply (wrapper_method_without_session Rollback); eauto.
  apply assoc_assoc_set_same.
Qed.

Lemma rollback_after_commit_fails_witness :
  invoke 1 (VRef 1) "rollback" []
    (snd (invoke 1 (VRef 1) "commit" [] entered_wrapper_world))
  = (inl (AttributeError "NoneType" "rollback"),
     snd (invoke 1 (VRef 1) "commit" [] entered_wrapper_world)).
Proof.
  apply (rollback_after_commit_fails 0 0 1
           (assoc_set "session" (VSession 1) sample_wrapper) 1
           entered_wrapper_world).
  - exact entered_wrapper_at.
  - reflexivity.
  - simpl; repeat split; reflexivity.
Defined.

(** ** Entering and leaving the session wrapper *)

Lemma aenter_runs d a dict f w :
  wrapper_at a dict w ->
  assoc "session_factory" dict = Some (VSessionFactory f) ->
  calls_return (library w) (trace w) [session_factory_call f] ->
  exec (S d) SessionContextManager_aenter (VRef a) [] w
  = (inr VNone, entered a dict f w).
Proof.
  intros [Hcell _] Hf [Hlib _]. py_run. reflexivity.
Qed.

Lemma aexit_runs d a dict s args w :
  wrapper_at a dict w ->
  assoc "session" dict = Some (VSession s) ->
  calls_return (library w) (trace w) [session_rollback s; session_close s] ->
  exec (S (S d)) SessionContextManager_aexit (VRef a) args w
  = (inr VNone, detached a dict [session_rollback s; session_close s] w).
Proof.
  intros Hw Hs Hlib.
  assert (Hcell := proj1 Hw).
  pose proof (not_hidden _ _ _ "rollback" _ Hw eq_refl) as Hfree.
  cbn [exec]. unfold SessionContextManager.__aexit__.
  erewrite bind_inr
    by (eapply load_callee_method; [exact Hcell | exact Hfree | reflexivity]).
  erewrite bind_inr
    by (apply (wrapper_method_runs Rollback); eauto).
  reflexivity.
Qed.

Lemma load_special_wrapper a dict w name m :
  wrapper_at a dict w ->
  find_method "SessionContextManager" name = Some m ->
  load_special (VRef a) name w = (inr (BoundMethod (VRef a) m), w).
Proof.
  intros [Hcell _] Hm. unfold load_special. now rewrite Hcell, Hm.
Qed.

(** C1, as the code has it.  Take an [async with] block on a wrapper whose
    [__aenter__] returns.  If a session is still attached when the body is
    left, whether the body returned or raised, then [__aexit__] rolls that
    session back and then closes it (the library letting both calls
    return), calls nothing else, [commit] in particular, and clears the
    reference; the block comes to what the body came to, so an exception of
    the body goes on to the caller. *)
Theorem exit_rolls_back_and_closes_attached_session :
  forall d a dict f (body : value -> M value) w r w2 dict2 s,
    wrapper_at a dict w ->
    assoc "session_factory" dict = Some (VSessionFactory f) ->
    calls_return (library w) (trace w) [session_factory_call f] ->
    body VNone (entered a dict f w) = (r, w2) ->
    wrapper_at a dict2 w2 ->
    assoc "session" dict2 = Some (VSession s) ->
    calls_return (library w2) (trace w2)
      [session_rollback s; session_close s] ->
    async_with (S (S d)) (VRef a) body w
    = (r, detached a dict2 [session_rollback s; session_close s] w2).
Proof.
  intros d a dict f body w r w2 dict2 s Hw Hf Henter Hbody Hw2 Hs Hexit.
  unfold async_with.
  erewrite bind_inr by (eapply load_special_wrapper; [exact Hw | reflexivity]).
  erewrite bind_inr by (eapply load_special_wrapper; [exact Hw | reflexivity]).
  erewrite bind_inr by (apply aenter_runs; eauto).
  erewrite bind_inr by (unfold attempt; rewrite Hbody; reflexivity).
  destruct r as [e | v];
    (erewrite bind_inr by (apply aexit_runs; eauto)); reflexivity.
Qed.

Lemma sample_wrapper_at : wrapper_at 1 sample_wrapper sample_wrapper_world.
Proof. split; [reflexivity | exact sample_wrapper_free]. Qed.

Lemma exit_rolls_back_and_closes_attached_session_witness :
  async_with 2 (VRef 1) (fun _ => raise (LibraryError 3)) sample_wrapper_world
  = (inl (LibraryError 3),
     detached 1 (assoc_set "session" (VSession 1) sample_wrapper)
       [session_rollback 1; session_close 1]
       (entered 1 sample_wrapper 0 sample_wrapper_world)).
Proof.
  apply (exit_rolls_back_and_closes_attached_session 0 1 sample_wrapper 0
           (fun _ => raise (LibraryError 3)) sample_wrapper_world
           (inl (LibraryError 3))
           (entered 1 sample_wrapper 0 sample_wrapper_world)
           (assoc_set "session" (VSession 1) sample_wrapper) 1).
  - exact sample_wrapper_at.
  - reflexivity.
  - simpl; repeat split; reflexivity.
  - reflexivity.
  - exact entered_wrapper_at.
  - reflexivity.
  - simpl; repeat split; reflexivity.
Defined.

(** C1, as stated, fails: a body that calls [commit()], as a caller must to
    keep its work, leaves no session attached; [__aexit__] then raises
    [AttributeError] and calls neither [rollback] nor [close] on any
    session. *)
Lemma exit_after_commit_raises_without_rollback :
  fst (async_with 2 (VRef 1) (fun _ => invoke 2 (VRef 1) "commit" [])
         sample_wrapper_world)
  = inl (AttributeError "NoneType" "rollback")
  /\ trace (snd (async_with 2 (VRef 1)
                   (fun _ => invoke 2 (VRef 1) "commit" [])
                   sample_wrapper_world))
     = [ async_sessionmaker_call []; session_factory_call 0;
         session_commit 1; session_close 1 ].
Proof. split; reflexivity. Qed.

(** ** When the library raises *)

Lemma wrapper_method_fails (op : session_op) (m : method) d a cls dict s e w :
  (op = Commit /\ m = SessionContextManager_commit)
  \/ (op = Rollback /\ m = SessionContextManager_rollback) ->
  heap_get a (heap w) = Some (Instance cls dict) ->
  assoc "session" dict = Some (VSession s) ->
  outcome (library w) (trace w ++ [session_event op s]) = Some e ->
  exec (S d) m (VRef a) [] w
  = (inl e, with_trace (trace w ++ [session_event op s]) w).
Proof.
  intros Hop Hcell Hs Hlib.
  destruct Hop as [[-> ->] | [-> ->]]; simpl in Hlib; py_run; reflexivity.
Qed.

(** X1. When the session's [commit] (in [commit()]) or [rollback] (in
    [rollback()]) raises, the wrapper passes the exception on at once:
    [close] is not called and the session stays attached. *)
Theorem failed_commit_or_rollback_leaves_session_open :
  forall d a dict s name op e w,
    wrapper_at a dict w ->
    assoc "session" dict = Some (VSession s) ->
    (name = "commit" /\ op = Commit)
    \/ (name = "rollback" /\ op = Rollback) ->
    outcome (library w) (trace w ++ [session_event op s]) = Some e ->
    let w' := with_trace (trace w ++ [session_event op s]) w in
    invoke (S d) (VRef a) name [] w = (inl e, w')
    /\ load_attr (VRef a) "session" w' = (inr (VSession s), w').
Proof.
  intros d a dict s name op e w Hw Hs Hname Hlib w'.
  assert (Hcell := proj1 Hw).
  assert (Hm : exists m,
             find_method "SessionContextManager" name = Some m
             /\ ((op = Commit /\ m = SessionContextManager_commit)
                 \/ (op = Rollback /\ m = SessionContextManager_rollback))).
  { destruct Hname as [[-> ->] | [-> ->]]; eexists; split;
      try reflexivity; auto. }
  destruct Hm as (m & Hfind & Hop).
  pose proof (not_hidden _ _ _ _ _ Hw Hfind) as Hfree.
  split.
  - rewrite (invoke_method _ _ _ _ _ _ _ _ Hcell Hfree Hfind).
    eapply wrapper_method_fails; eauto.
  - now apply (load_attr_instance a "SessionContextManager" dict).
Qed.

Lemma failed_commit_or_rollback_leaves_session_open_witness :
  invoke 1 (VRef 1) "commit" [] refused_wrapper_world
  = (inl (LibraryError 1),
     with_trace (trace refused_wrapper_world ++ [session_commit 1])
       refused_wrapper_world).
Proof.
  refine (proj1 (failed_commit_or_rollback_leaves_session_open 0 1
                   (assoc_set "session" (VSession 1) sample_wrapper) 1
                   "commit" Commit (LibraryError 1) refused_wrapper_world
                   _ eq_refl (or_introl (conj eq_refl eq_refl)) eq_refl)).
  split; [reflexivity | exact (proj2 entered_wrapper_at)].
Defined.

(** X2. [__aenter__] calls the stored session factory once, attaches the
    new session to the wrapper and returns [None]: the target of
    [async with ... as] is [None], the session is reached through the
    wrapper. *)
Theorem aenter_attaches_new_session_and_returns_None :
  forall d a dict f w,
    wrapper_at a dict w ->
    assoc "session_factory" dict = Some (VSessionFactory f) ->
    calls_return (library w) (trace w) [session_factory_call f] ->
    invoke (S d) (VRef a) "__aenter__" [] w = (inr VNone, entered a dict f w)
    /\ load_attr (VRef a) "session" (entered a dict f w)
       = (inr (VSession (List.length (trace w))), entered a dict f w).
Proof.
  intros d a dict f w Hw Hf Hlib. split.
  - rewrite (invoke_method (S d) a _ dict "__aenter__"
               SessionContextManager_aenter [] w (proj1 Hw)
               (not_hidden _ _ _ "__aenter__" _ Hw eq_refl) eq_refl).
    now apply aenter_runs.
  - unfold load_attr, entered; simpl.
    now rewrite Nat.eqb_refl, assoc_assoc_set_same.
Qed.

Lemma aenter_attaches_new_session_and_returns_None_witness :
  invoke 1 (VRef 1) "__aenter__" [] sample_wrapper_world
  = (inr VNone, entered 1 sample_wrapper 0 sample_wrapper_world).
Proof.
  refine (proj1 (aenter_attaches_new_session_and_returns_None 0 1
                   sample_wrapper 0 sample_wrapper_world sample_wrapper_at
                   eq_refl _)).
  simpl; repeat split; reflexivity.
Defined.

(** ** The session factory of [DatabaseSession] *)

Lemma heap_get_in a h c : heap_get a h = Some c -> In a (map fst h).
Proof.
  induction h as [|[a' c'] h IH]; simpl; [discriminate|].
  destruct (Nat.eqb a a') eqn:E; auto.
  apply Nat.eqb_eq in E. auto.
Qed.

Lemma heap_get_fresh a h c :
  heap_get a h = Some c -> Nat.eqb a (fresh h) = false.
Proof.
  intros H. apply heap_get_in in H. apply Nat.eqb_neq. unfold fresh.
  pose proof (proj1 (list_max_le (map fst h) (list_max (map fst h)))
                (Nat.le_refl _)) as Hall.
  rewrite Forall_forall in Hall. specialize (Hall a H). lia.
Qed.

Lemma alloc_runs c w : alloc c w = (inr (VRef (fresh (heap w))), allocated c w).
Proof. reflexivity. Qed.

Lemma heap_get_new c w :
  heap_get (fresh (heap w)) (heap (allocated c w)) = Some c.
Proof. unfold allocated; simpl. now rewrite Nat.eqb_refl. Qed.

Lemma heap_get_allocated a c c' w :
  heap_get a (heap w) = Some c ->
  heap_get a (heap (allocated c' w)) = Some c.
Proof.
  intros H. unfold allocated; simpl. now rewrite (heap_get_fresh a _ c H).
Qed.

Lemma has_key_app {V} k (l l' : list (string * V)) :
  has_key k (l ++ l') = orb (has_key k l) (has_key k l').
Proof.
  unfold has_key. induction l as [|[k' v] l IH]; simpl; auto.
  destruct (String.eqb k k'); auto.
Qed.


Lemma bind_ret_r {A} (m : M A) w : bind m (fun x => ret x) w = m w.
Proof. unfold bind, ret. destruct (m w) as [[e | a] w']; reflexivity. Qed.

Lemma URL_create_runs kw components w :
  bind_signature (URL_create_signature (library w)) kw = inr components ->
  outcome (library w) (trace w ++ [URL_create_call kw]) = None ->
  URL_create kw w
  = (inr (VUrl components), with_trace (trace w ++ [URL_create_call kw]) w).
Proof.
  intros Hbind Hlib. unfold URL_create, bind, emit, lift, consult, ret; simpl.
  now rewrite Hbind, Hlib.
Qed.

Lemma create_async_engine_runs url kw w :
  has_key "url" kw = false ->
  outcome (library w) (trace w ++ [create_async_engine_call url kw]) = None ->
  create_async_engine url kw w
  = (inr (VEngine (List.length (trace w))),
     with_trace (trace w ++ [create_async_engine_call url kw]) w).
Proof.
  intros Hurl Hlib.
  unfold create_async_engine, bind, emit, consult, ret; simpl.
  rewrite Hurl; simpl. now rewrite Hlib.
Qed.

Lemma async_sessionmaker_runs kw w :
  outcome (library w) (trace w ++ [async_sessionmaker_call kw]) = None ->
  async_sessionmaker kw w
  = (inr (VSessionFactory (List.length (trace w))),
     with_trace (trace w ++ [async_sessionmaker_call kw]) w).
Proof.
  intros Hlib. unfold async_sessionmaker, bind, emit, consult, ret; simpl.
  now rewrite Hlib.
Qed.

Lemma create_url_is_URL_create d self kw w :
  exec (S d) DatabaseSession_create_url self [VDict kw] w = URL_create kw w.
Proof.
  cbn [exec]. unfold DatabaseSession.__create_url, unpack_mapping.
  erewrite bind_inr by reflexivity. apply bind_ret_r.
Qed.

Lemma create_async_engine_method d self url kw w :
  exec (S d) DatabaseSession_create_async_engine self [url; VDict kw] w
  = create_async_engine url kw w.
Proof.
  cbn [exec]. unfold DatabaseSession.__create_async_engine, unpack_mapping.
  erewrite bind_inr by reflexivity. apply bind_ret_r.
Qed.

Lemma merge_class_and_bind kw engine :
  has_key "class_" kw = false ->
  has_key "bind" kw = false ->
  merge_keywords kw [("class_", VClass "AsyncSession"); ("bind", engine)]
  = inr (kw ++ [("class_", VClass "AsyncSession"); ("bind", engine)]).
Proof.
  intros Hc Hb. simpl. rewrite Hc, has_key_app, Hb. simpl.
  now rewrite <- app_assoc.
Qed.

Lemma create_async_session_factory_method d self engine kw w :
  has_key "class_" kw = false ->
  has_key "bind" kw = false ->
  exec (S d) DatabaseSession_create_async_session_factory self
    [engine; VDict kw] w
  = async_sessionmaker
      (kw ++ [("class_", VClass "AsyncSession"); ("bind", engine)]) w.
Proof.
  intros Hc Hb. cbn [exec].
  unfold DatabaseSession.__create_async_session_factory, unpack_mapping.
  erewrite bind_inr by reflexivity.
  erewrite bind_inr by (unfold lift; now rewrite merge_class_and_bind).
  apply bind_ret_r.
Qed.


Ltac step tac := erewrite bind_inr by tac; cbv beta.

Lemma precreate_runs d a cls ukw ekw skw components w :
  database_session_at a cls (VDict ukw) (VDict ekw) (VDict skw) w ->
  bind_signature (URL_create_signature (library w)) ukw = inr components ->
  has_key "url" ekw = false ->
  has_key "class_" skw = false ->
  has_key "bind" skw = false ->
  calls_return (library w) (trace w)
    (precreate_calls (List.length (trace w)) ukw components ekw skw) ->
  exec (S (S d)) DatabaseSession_precreate_async_session (VRef a) [] w
  = (inr (VSessionFactory (List.length (trace w) + 2)),
     with_trace
       (trace w ++ precreate_calls (List.length (trace w)) ukw components
                     ekw skw) w).
Proof.
  intros [Hcell Hcls] Hbind Hurl Hclass Hbindkw (H1 & H2 & H3 & _).
  change (exec (S (S d)) DatabaseSession_precreate_async_session (VRef a) [])
    with (DatabaseSession.__precreate_async_session (call (S d)) (VRef a) []).
  unfold DatabaseSession.__precreate_async_session.
  step ltac:(eapply load_callee_method;
             [exact Hcell | reflexivity | destruct Hcls; subst cls; reflexivity]).
  step ltac:(eapply load_attr_instance; [exact Hcell | reflexivity]).
  step ltac:(unfold call, call_with; rewrite create_url_is_URL_create;
             eapply URL_create_runs; eassumption).
  step ltac:(eapply load_callee_method;
             [exact Hcell | reflexivity | destruct Hcls; subst cls; reflexivity]).
  step ltac:(eapply load_attr_instance; [exact Hcell | reflexivity]).
  step ltac:(unfold call, call_with; rewrite create_async_engine_method;
             eapply create_async_engine_runs; eassumption).
  step ltac:(eapply load_callee_method;
             [exact Hcell | reflexivity | destruct Hcls; subst cls; reflexivity]).
  step ltac:(eapply load_attr_instance; [exact Hcell | reflexivity]).
  cbn [trace with_trace] in *. rewrite length_app in *. cbn [List.length] in *.
  step ltac:(unfold call, call_with;
             rewrite create_async_session_factory_method by assumption;
             eapply async_sessionmaker_runs; eassumption).
  unfold ret, precreate_calls. cbn [trace with_trace].
  rewrite !length_app. cbn [List.length].
  rewrite <- !app_assoc. simpl.
  replace (List.length (trace w) + 1 + 1) with (List.length (trace w) + 2)
    by lia.
  reflexivity.
Qed.

Lemma invoke_create_async_session d a cls up ep sp w :
  database_session_at a cls up ep sp w ->
  invoke (S d) (VRef a) "create_async_session" [] w
  = (inr (VRef (fresh (heap w))),
     allocated (Generator (VRef a) GEN_CREATED) w).
Proof.
  intros [Hcell Hcls].
  assert (Hfind : find_method cls "create_async_session"
                  = Some DatabaseSession_create_async_session)
    by (destruct Hcls; subst cls; reflexivity).
  now rewrite (invoke_method (S d) a cls _ "create_async_session" _ [] w
                 Hcell eq_refl Hfind).
Qed.

Lemma database_session_at_allocated a cls up ep sp c w :
  database_session_at a cls up ep sp w ->
  database_session_at a cls up ep sp (allocated c w).
Proof.
  intros [Hcell Hcls]. split; auto. now apply heap_get_allocated.
Qed.

Lemma first_next_runs d g self cls dict v w w' :
  heap_get g (heap w) = Some (Generator (VRef self) GEN_CREATED) ->
  heap_get self (heap w) = Some (Instance cls dict) ->
  assoc (mangle "DatabaseSession" "__precreate_async_session") dict = None ->
  cls = "DatabaseSession" \/ cls = "SessionContextManager" ->
  exec d DatabaseSession_precreate_async_session (VRef self) [] w
  = (inr v, w') ->
  next (S d) (VRef g) w
  = (inr v,
     with_heap ((g, Generator (VRef self) GEN_SUSPENDED) :: heap w') w').
Proof.
  intros Hg Hcell Hfree Hcls Hrun.
  unfold next, resume_generator. rewrite Hg.
  unfold create_async_session_generator.resume.
  erewrite bind_inr
    by (eapply load_callee_method;
        [exact Hcell | exact Hfree | destruct Hcls; subst cls; reflexivity]).
  erewrite bind_inr by (unfold call, call_with; exact Hrun).
  reflexivity.
Qed.

(** C4. On a [DatabaseSession] instance, calling [create_async_session()]
    makes the generator and calls nothing yet; the generator's first step
    makes three library calls in this order: the URL from the stored
    [url_params], the engine from that URL with the stored [engine_params],
    the session factory from the stored [sessionmaker_params] bound to that
    engine (the library accepting the parameters and letting the calls
    return).  What it yields is the session factory made by the third call,
    not a session: no session is created. *)
Theorem create_async_session_yields_session_factory :
  forall d a cls ukw ekw skw components w,
    database_session_at a cls (VDict ukw) (VDict ekw) (VDict skw) w ->
    bind_signature (URL_create_signature (library w)) ukw = inr components ->
    has_key "url" ekw = false ->
    has_key "class_" skw = false ->
    has_key "bind" skw = false ->
    calls_return (library w) (trace w)
      (precreate_calls (List.length (trace w)) ukw components ekw skw) ->
    let g := fresh (heap w) in
    let w1 := allocated (Generator (VRef a) GEN_CREATED) w in
    let w2 := with_trace
                (trace w ++ precreate_calls (List.length (trace w)) ukw
                              components ekw skw) w1 in
    invoke (S d) (VRef a) "create_async_session" [] w = (inr (VRef g), w1)
    /\ next (S (S (S d))) (VRef g) w1
       = (inr (VSessionFactory (List.length (trace w) + 2)),
          with_heap ((g, Generator (VRef a) GEN_SUSPENDED) :: heap w2) w2).
Proof.
  intros d a cls ukw ekw skw components w Hds Hbind Hurl Hclass Hbindkw Hlib
    g w1 w2.
  split.
  - eapply invoke_create_async_session; eauto.
  - assert (Hds1 : database_session_at a cls (VDict ukw) (VDict ekw)
                     (VDict skw) w1)
      by now apply database_session_at_allocated.
    eapply first_next_runs.
    + unfold w1, allocated, g; simpl. now rewrite Nat.eqb_refl.
    + exact (proj1 Hds1).
    + reflexivity.
    + exact (proj2 Hds1).
    + apply (precreate_runs d a cls ukw ekw skw components w1); auto.
Qed.

Lemma sample_database_session_at :
  database_session_at 6 "DatabaseSession" (VDict sample_url_params)
    (VDict sample_engine_params) (VDict sample_sessionmaker_params)
    sample_database_session_world.
Proof. split; [reflexivity | left; reflexivity]. Qed.

Lemma create_async_session_yields_session_factory_witness :
  next 3 (VRef 7)
    (allocated (Generator (VRef 6) GEN_CREATED) sample_database_session_world)
  = (inr (VSessionFactory 3),
     with_heap
       ((7, Generator (VRef 6) GEN_SUSPENDED)
          :: heap (allocated (Generator (VRef 6) GEN_CREATED)
                     sample_database_session_world))
       (with_trace
          (trace sample_database_session_world
             ++ precreate_calls 1 sample_url_params sample_url_components
                  sample_engine_params sample_sessionmaker_params)
          (allocated (Generator (VRef 6) GEN_CREATED)
             sample_database_session_world))).
Proof.
  refine (proj2 (create_async_session_yields_session_factory 0 6
                   "DatabaseSession" sample_url_params sample_engine_params
                   sample_sessionmaker_params sample_url_components
                   sample_database_session_world
                   sample_database_session_at _ _ _ _ _));
    try reflexivity.
  simpl; repeat split; reflexivity.
Defined.


Lemma bind_signature_missing sig kw k :
  In (k, None) sig ->
  has_key k kw = false ->
  exists msg, bind_signature sig kw = inl (TypeError msg).
Proof.
  intros Hin Hk. unfold bind_signature.
  destruct (find _ kw) as [[k' v']|]; [eauto|].
  destruct (filter (missing_in kw) sig) as [|[k' d'] rest] eqn:E; [|eauto].
  assert (In (k, None) (filter (missing_in kw) sig)) as Habs.
  { apply filter_In. split; auto. unfold missing_in; simpl. now rewrite Hk. }
  rewrite E in Habs. destruct Habs.
Qed.



Lemma URL_create_fails kw msg w :
  bind_signature (URL_create_signature (library w)) kw = inl (TypeError msg) ->
  URL_create kw w
  = (inl (TypeError msg), with_trace (trace w ++ [URL_create_call kw]) w).
Proof.
  intros Hbind. unfold URL_create, bind, emit, lift, ret; simpl.
  now rewrite Hbind.
Qed.

(** ** The URL from the connection parameters *)

(** C6. When the stored URL parameters lack a parameter that [URL.create]
    requires, [URL.create] raises a [TypeError]; [__create_url] raises that
    error, and so does [__precreate_async_session], having made that one
    library call and no other: no engine is created, nothing reaches for
    the database. *)
Theorem create_url_fails_on_missing_required_key :
  forall d a cls kw ep sp k w,
    database_session_at a cls (VDict kw) ep sp w ->
    In (k, None) (URL_create_signature (library w)) ->
    has_key k kw = false ->
    exists msg,
      let failed := (inl (TypeError msg),
                     with_trace (trace w ++ [URL_create_call kw]) w) in
      URL_create kw w = failed
      /\ invoke (S d) (VRef a) (mangle "DatabaseSession" "__create_url")
           [VDict kw] w = failed
      /\ invoke (S (S d)) (VRef a)
           (mangle "DatabaseSession" "__precreate_async_session") [] w
         = failed
      /\ heap (snd failed) = heap w
      /\ existsb database_event
           (skipn (List.length (trace w)) (trace (snd failed))) = false.
Proof.
  intros d a cls kw ep sp k w [Hcell Hcls] Hreq Hmiss.
  destruct (bind_signature_missing _ kw k Hreq Hmiss) as [msg Hbind].
  exists msg. intros failed.
  pose proof (URL_create_fails kw msg w Hbind) as Hurl.
  assert (Hmethod : exec (S d) DatabaseSession_create_url (VRef a)
                      [VDict kw] w = failed)
    by now rewrite create_url_is_URL_create.
  split; [exact Hurl | split; [|split; [|split]]].
  4:{ unfold failed; simpl. rewrite skipn_app, skipn_all, Nat.sub_diag.
      reflexivity. }
  3:{ reflexivity. }
  - rewrite (invoke_method (S d) a cls _
               (mangle "DatabaseSession" "__create_url")
               DatabaseSession_create_url [VDict kw] w Hcell eq_refl); auto.
    destruct Hcls; subst cls; reflexivity.
  - rewrite (invoke_method (S (S d)) a cls _
               (mangle "DatabaseSession" "__precreate_async_session")
               DatabaseSession_precreate_async_session [] w Hcell eq_refl);
      [|destruct Hcls; subst cls; reflexivity].
    change (exec (S (S d)) DatabaseSession_precreate_async_session (VRef a) [])
      with (DatabaseSession.__precreate_async_session (call (S d)) (VRef a) []).
    unfold DatabaseSession.__precreate_async_session.
    step ltac:(eapply load_callee_method;
               [exact Hcell | reflexivity
               | destruct Hcls; subst cls; reflexivity]).
    step ltac:(eapply load_attr_instance; [exact Hcell | reflexivity]).
    erewrite bind_inl by (unfold call, call_with; exact Hmethod).
    reflexivity.
Qed.

Lemma incomplete_database_session_at :
  database_session_at 1 "DatabaseSession" (VDict incomplete_url_params)
    (VDict sample_engine_params) (VDict sample_sessionmaker_params)
    incomplete_world.
Proof. split; [reflexivity | left; reflexivity]. Qed.

Lemma create_url_fails_on_missing_required_key_witness :
  exists msg,
    invoke 2 (VRef 1) (mangle "DatabaseSession" "__precreate_async_session")
      [] incomplete_world
    = (inl (TypeError msg),
       with_trace [URL_create_call incomplete_url_params] incomplete_world).
Proof.
  destruct (create_url_fails_on_missing_required_key 0 1 "DatabaseSession"
              incomplete_url_params (VDict sample_engine_params)
              (VDict sample_sessionmaker_params) "drivername"
              incomplete_world incomplete_database_session_at
              (or_introl eq_refl) eq_refl)
    as (msg & _ & _ & H & _).
  exists msg. exact H.
Defined.




(** ** [open_async_session] *)

Lemma exn_eqb_refl e : exn_eqb e e = true.
Proof.
  destruct e; simpl; rewrite ?String.eqb_refl, ?Nat.eqb_refl; reflexivity.
Qed.

Lemma invoke_open_async_session d a cls up ep sp w :
  database_session_at a cls up ep sp w ->
  let w0 := allocated (Generator (VRef a) GEN_CREATED) w in
  invoke (S (S d)) (VRef a) "open_async_session" [] w
  = (inr (VRef (fresh (heap w0))),
     allocated (GeneratorContextManager (VRef (fresh (heap w)))) w0).
Proof.
  intros [Hcell Hcls] w0.
  assert (Hfind : find_method cls "open_async_session"
                  = Some DatabaseSession_open_async_session)
    by (destruct Hcls; subst cls; reflexivity).
  rewrite (invoke_method (S (S d)) a cls _ "open_async_session" _ [] w
             Hcell eq_refl Hfind).
  change (exec (S (S d)) DatabaseSession_open_async_session (VRef a) [])
    with (contextlib.contextmanager
            (DatabaseSession.open_async_session_undecorated (call (S d))
               (VRef a) [])).
  unfold contextlib.contextmanager,
    DatabaseSession.open_async_session_undecorated.
  erewrite bind_inr; [reflexivity|].
  erewrite bind_inr
    by (eapply load_callee_method;
        [exact Hcell | reflexivity | destruct Hcls; subst cls; reflexivity]).
  reflexivity.
Qed.

Lemma first_step_never_returns run self w e_or_step w' :
  create_async_session_generator.resume run self GEN_CREATED Next w
  = (e_or_step, w') ->
  e_or_step <> inr Return.
Proof.
  unfold create_async_session_generator.resume, bind, ret.
  destruct (load_callee self _ w) as [[e | f] w1]; [congruence|].
  destruct (run f [] w1) as [[e | v] w2]; congruence.
Qed.

Lemma enter_is_first_next n cm g self w :
  heap_get cm (heap w) = Some (GeneratorContextManager (VRef g)) ->
  heap_get g (heap w) = Some (Generator self GEN_CREATED) ->
  contextlib.__enter__ (resume_generator n) (VRef cm) w = next n (VRef g) w.
Proof.
  intros Hcm Hg. unfold contextlib.__enter__.
  erewrite bind_inr
    by (unfold contextlib.gen_of; rewrite Hcm; reflexivity).
  unfold bind, attempt, next, resume_generator. rewrite Hg.
  destruct n as [|n]; [reflexivity|].
  destruct (create_async_session_generator.resume (call n) self GEN_CREATED
              Next w) as [[e | [st v|]] w'] eqn:E.
  - destruct e; reflexivity.
  - reflexivity.
  - now apply first_step_never_returns in E.
Qed.

Lemma exit_leaves_suspended_generator n cm g self exc w :
  heap_get cm (heap w) = Some (GeneratorContextManager (VRef g)) ->
  heap_get g (heap w) = Some (Generator self GEN_SUSPENDED) ->
  contextlib.__exit__ (resume_generator (S n)) (VRef cm) exc w
  = (inr (VBool false),
     with_heap ((g, Generator self GEN_CLOSED) :: heap w) w).
Proof.
  intros Hcm Hg. unfold contextlib.__exit__.
  erewrite bind_inr
    by (unfold contextlib.gen_of; rewrite Hcm; reflexivity).
  destruct exc as [e|];
    unfold bind, attempt, resume_generator; rewrite Hg; simpl.
  - destruct e; simpl; rewrite ?String.eqb_refl, ?Nat.eqb_refl; reflexivity.
  - reflexivity.
Qed.

(** C5, as the code has it.  On a [DatabaseSession] instance,
    [open_async_session()] returns a [contextlib] context manager around
    the very generator that [create_async_session()] makes, not the
    generator itself; like that call it calls nothing.  Entering the context
    manager is the generator's first step, with the same result and the same
    effects.  Leaving it while the generator stands at its [yield], with or
    without an exception, only closes the generator: it calls nothing,
    releases nothing and does not swallow the exception. *)
Theorem open_async_session_wraps_the_iterator :
  forall d a cls up ep sp w,
    database_session_at a cls up ep sp w ->
    let g := fresh (heap w) in
    let w0 := allocated (Generator (VRef a) GEN_CREATED) w in
    let cm := fresh (heap w0) in
    let w1 := allocated (GeneratorContextManager (VRef g)) w0 in
    invoke (S d) (VRef a) "create_async_session" [] w = (inr (VRef g), w0)
    /\ invoke (S (S d)) (VRef a) "open_async_session" [] w
       = (inr (VRef cm), w1)
    /\ (forall n,
          contextlib.__enter__ (resume_generator n) (VRef cm) w1
          = next n (VRef g) w1)
    /\ (forall n exc w2,
          heap_get cm (heap w2) = Some (GeneratorContextManager (VRef g)) ->
          heap_get g (heap w2) = Some (Generator (VRef a) GEN_SUSPENDED) ->
          contextlib.__exit__ (resume_generator (S n)) (VRef cm) exc w2
          = (inr (VBool false),
             with_heap ((g, Generator (VRef a) GEN_CLOSED) :: heap w2) w2)).
Proof.
  intros d a cls up ep sp w Hds g w0 cm w1.
  assert (Hg0 : heap_get g (heap w0) = Some (Generator (VRef a) GEN_CREATED))
    by (unfold w0, allocated, g; simpl; now rewrite Nat.eqb_refl).
  repeat split.
  - eapply invoke_create_async_session; eauto.
  - eapply invoke_open_async_session; eauto.
  - intros n. apply (enter_is_first_next n cm g (VRef a) w1).
    + unfold w1, allocated, cm; simpl. now rewrite Nat.eqb_refl.
    + now apply heap_get_allocated.
  - intros n exc w2. apply exit_leaves_suspended_generator.
Qed.

Lemma open_async_session_wraps_the_iterator_witness :
  invoke 2 (VRef 6) "open_async_session" [] sample_database_session_world
  = (inr (VRef 8),
     allocated (GeneratorContextManager (VRef 7))
       (allocated (Generator (VRef 6) GEN_CREATED)
          sample_database_session_world)).
Proof.
  exact (proj1 (proj2 (open_async_session_wraps_the_iterator 0 6
                         "DatabaseSession" _ _ _ sample_database_session_world
                         sample_database_session_at))).
Defined.

(** C5, as stated, fails: what [open_async_session()] returns is not the
    iterator.  [next] on it raises [TypeError], where [next] on the result
    of [create_async_session()] yields the session factory. *)
Lemma open_async_session_is_not_the_iterator :
  fst ((cm <- invoke 2 (VRef 6) "open_async_session" [] ;; next 3 cm)
         sample_database_session_world)
  = inl (TypeError "_GeneratorContextManager object is not an iterator")
  /\ fst ((g <- invoke 2 (VRef 6) "create_async_session" [] ;; next 3 g)
           sample_database_session_world)
     = inr (VSessionFactory 3).
Proof. split; reflexivity. Qed.

(** ** The generator and the context manager, to the end *)

(** X3. Resumed after its [yield], the generator of
    [create_async_session] ends at once: [StopIteration], no library call,
    nothing committed, rolled back or closed. *)
Theorem exhausted_generator_makes_no_call :
  forall n g self w,
    heap_get g (heap w) = Some (Generator self GEN_SUSPENDED) ->
    next (S n) (VRef g) w
    = (inl StopIteration,
       with_heap ((g, Generator self GEN_CLOSED) :: heap w) w).
Proof.
  intros n g self w Hg. unfold next, resume_generator. now rewrite Hg.
Qed.

Lemma exhausted_generator_makes_no_call_witness :
  next 1 (VRef 7) suspended_generator_world
  = (inl StopIteration,
     with_heap ((7, Generator (VRef 6) GEN_CLOSED)
                  :: heap suspended_generator_world)
       suspended_generator_world).
Proof.
  exact (exhausted_generator_makes_no_call 0 7 (VRef 6)
           suspended_generator_world eq_refl).
Defined.

(** X4. [with wrapper.open_async_session() as x: body]: entering makes
    the three library calls and binds [x] to the session factory; the block
    comes to what the body comes to, and leaving it calls nothing more. *)
Theorem with_open_async_session_is_pass_through :
  forall d a cls ukw ekw skw components (body : value -> M value) w r w3,
    database_session_at a cls (VDict ukw) (VDict ekw) (VDict skw) w ->
    bind_signature (URL_create_signature (library w)) ukw = inr components ->
    has_key "url" ekw = false ->
    has_key "class_" skw = false ->
    has_key "bind" skw = false ->
    calls_return (library w) (trace w)
      (precreate_calls (List.length (trace w)) ukw components ekw skw) ->
    let g := fresh (heap w) in
    let w0 := allocated (Generator (VRef a) GEN_CREATED) w in
    let cm := fresh (heap w0) in
    let w1 := allocated (GeneratorContextManager (VRef g)) w0 in
    let w2 := with_trace
                (trace w ++ precreate_calls (List.length (trace w)) ukw
                              components ekw skw) w1 in
    body (VSessionFactory (List.length (trace w) + 2))
      (with_heap ((g, Generator (VRef a) GEN_SUSPENDED) :: heap w2) w2)
    = (r, w3) ->
    heap_get cm (heap w3) = Some (GeneratorContextManager (VRef g)) ->
    heap_get g (heap w3) = Some (Generator (VRef a) GEN_SUSPENDED) ->
    with_statement (S (S (S d)))
      (invoke (S (S d)) (VRef a) "open_async_session" []) body w
    = (r, with_heap ((g, Generator (VRef a) GEN_CLOSED) :: heap w3) w3).
Proof.
  intros d a cls ukw ekw skw components body w r w3 Hds Hbind Hurl Hclass
    Hbindkw Hlib g w0 cm w1 w2 Hbody Hcm Hg.
  unfold with_statement.
  step ltac:(eapply invoke_open_async_session; eauto).
  fold w0 g cm w1.
  assert (Hds1 : database_session_at a cls (VDict ukw) (VDict ekw)
                   (VDict skw) w1)
    by (unfold w1, w0; now do 2 apply database_session_at_allocated).
  assert (Hcm1 : heap_get cm (heap w1)
                 = Some (GeneratorContextManager (VRef g)))
    by apply heap_get_new.
  assert (Hg1 : heap_get g (heap w1) = Some (Generator (VRef a) GEN_CREATED))
    by (apply heap_get_allocated, heap_get_new).
  erewrite bind_inr.
  2:{ rewrite (enter_is_first_next _ cm g (VRef a) w1 Hcm1 Hg1).
      eapply first_next_runs;
        [exact Hg1 | exact (proj1 Hds1) | reflexivity | exact (proj2 Hds1) |].
      apply (precreate_runs d a cls ukw ekw skw components w1); auto. }
  cbv beta.
  erewrite bind_inr.
  2:{ unfold attempt.
      match goal with
      | |- context [body ?x ?wx] =>
          change (body x wx)
            with (body (VSessionFactory (List.length (trace w) + 2))
                    (with_heap ((g, Generator (VRef a) GEN_SUSPENDED)
                                  :: heap w2) w2))
      end.
      rewrite Hbody. reflexivity. }
  destruct r as [e | v].
  - erewrite bind_inr
      by (apply exit_leaves_suspended_generator; eassumption).
    reflexivity.
  - erewrite bind_inr
      by (apply exit_leaves_suspended_generator; eassumption).
    reflexivity.
Qed.

Lemma with_open_async_session_is_pass_through_witness :
  fst (with_statement 3 (invoke 2 (VRef 6) "open_async_session" [])
         (fun x => ret x) sample_database_session_world)
  = inr (VSessionFactory 3).
Proof.
  rewrite (with_open_async_session_is_pass_through 0 6 "DatabaseSession"
             sample_url_params sample_engine_params sample_sessionmaker_params
             sample_url_components (fun x => ret x)
             sample_database_session_world _ _ sample_database_session_at
             eq_refl eq_refl eq_refl eq_refl
             (conj eq_refl (conj eq_refl (conj eq_refl I)))
             eq_refl eq_refl eq_refl).
  reflexivity.
Defined.

(** ** The settings holder *)

(** A frame argument: a run of the program leaves the settings object at
    [sa] alone.  [keeps m post] says that [m] keeps the object intact and, if
    it returns, returns something that satisfies [post]. *)
Section SettingsFrame.
Variable sa : nat.
Variable fields : list (string * value).

Local Abbreviation settings_intact := (settings_intact_at sa fields).
Local Abbreviation keeps := (keeps_settings sa fields).
Local Abbreviation callee_ok := (callee_avoids sa).

Lemma keeps_ret {A} (a : A) (post : A -> Prop) : post a -> keeps (ret a) post.
Proof. intros Hp w Hw; split; [exact Hw|]. simpl. now intros ? [= <-]. Qed.

Lemma keeps_raise {A} e (post : A -> Prop) : keeps (raise e) post.
Proof. intros w Hw; split; [exact Hw | discriminate]. Qed.

Lemma keeps_weaken {A} (m : M A) (P Q : A -> Prop) :
  keeps m P -> (forall a, P a -> Q a) -> keeps m Q.
Proof. intros Hm HPQ w Hw. destruct (Hm w Hw); split; auto. Qed.

Lemma keeps_bind {A B} (m : M A) (f : A -> M B) P Q :
  keeps m P -> (forall a, P a -> keeps (f a) Q) -> keeps (bind m f) Q.
Proof.
  intros Hm Hf w Hw. destruct (Hm w Hw) as [Hw' Hpost]. unfold bind.
  destruct (m w) as [[e | a] w']; simpl in *.
  - split; [exact Hw' | discriminate].
  - apply (Hf a (Hpost a eq_refl) w' Hw').
Qed.

Lemma keeps_pure {A} (m : M A) :
  (forall w, heap (snd (m w)) = heap w
             /\ config_settings (snd (m w)) = config_settings w) ->
  keeps m anything.
Proof.
  intros Hm w [Hc Hh]. destruct (Hm w) as [H1 H2].
  split; [|now intros]. split; congruence.
Qed.

Lemma keeps_emit ev : keeps (emit ev) anything.
Proof. apply keeps_pure; intros w; split; reflexivity. Qed.

Lemma keeps_consult : keeps consult anything.
Proof.
  apply keeps_pure; intros w; unfold consult.
  destruct (outcome _ _); split; reflexivity.
Qed.

Lemma keeps_lift {A} (r : exn + A) : keeps (lift r) anything.
Proof. apply keeps_pure; intros w; split; reflexivity. Qed.

Lemma keeps_attribute_error {A} v name (post : A -> Prop) :
  keeps (attribute_error v name) post.
Proof. intros w Hw; split; [exact Hw | discriminate]. Qed.

Lemma keeps_load_attr v name : keeps (load_attr v name) anything.
Proof.
  apply keeps_pure; intros w; unfold load_attr, attribute_error.
  destruct v; try (split; reflexivity).
  destruct (heap_get addr (heap w)) as [[cls dict| |]|];
    try (split; reflexivity).
  destruct (assoc name dict); split; reflexivity.
Qed.

Lemma keeps_heap_put a c :
  a <> sa -> keeps (heap_put a c) anything.
Proof.
  intros Ha w [Hc Hh]. split; [|now intros]. split; [exact Hc|].
  simpl. destruct (Nat.eqb sa a) eqn:E; [|exact Hh].
  apply Nat.eqb_eq in E; congruence.
Qed.

Lemma keeps_store_attr v name x :
  v <> VRef sa -> keeps (store_attr v name x) anything.
Proof.
  intros Hv w Hw. unfold store_attr.
  destruct v; try (now apply keeps_attribute_error).
  destruct (heap_get addr (heap w)) as [[cls dict| |]|];
    try (now apply keeps_attribute_error).
  apply keeps_heap_put; [congruence | exact Hw].
Qed.

Lemma keeps_alloc c : keeps (alloc c) (fun v => v <> VRef sa).
Proof.
  intros w [Hc Hh].
  pose proof (heap_get_fresh sa _ _ Hh) as Hfresh.
  split; [split; [exact Hc|] |].
  - simpl. now rewrite Hfresh.
  - simpl. intros a [= <-] [= E]. rewrite <- E, Nat.eqb_refl in Hfresh.
    discriminate.
Qed.

Lemma Settings_has_no_method name : find_method "Settings" name = None.
Proof. reflexivity. Qed.

Lemma keeps_load_callee v name : keeps (load_callee v name) callee_ok.
Proof.
  intros w Hw. split.
  - unfold load_callee, attribute_error.
    destruct v; try exact Hw.
    + destruct (heap_get addr (heap w)) as [[cls dict| |]|]; try exact Hw.
      destruct (assoc name dict); [exact Hw|].
      destruct (find_method cls name); exact Hw.
    + destruct (session_op_of name); exact Hw.
  - unfold load_callee, attribute_error.
    destruct v; try discriminate.
    + destruct (heap_get addr (heap w)) as [[cls dict| |]|] eqn:Hcell;
        try discriminate.
      destruct (assoc name dict); [now intros ? [= <-]|].
      destruct (find_method cls name) eqn:Hfind; [|discriminate].
      intros c [= <-]. simpl. intros [= ->].
      destruct Hw as [_ Hh]. rewrite Hh in Hcell.
      injection Hcell as <- <-. rewrite Settings_has_no_method in Hfind.
      discriminate.
    + destruct (session_op_of name); [now intros ? [= <-] | discriminate].
Qed.

Lemma keeps_load_special v name : keeps (load_special v name) callee_ok.
Proof.
  intros w Hw. split.
  - unfold load_special.
    destruct v; try exact Hw.
    destruct (heap_get addr (heap w)) as [[cls dict| |]|]; try exact Hw.
    destruct (find_method cls name); exact Hw.
  - unfold load_special.
    destruct v; try discriminate.
    destruct (heap_get addr (heap w)) as [[cls dict| |]|] eqn:Hcell;
      try discriminate.
    destruct (find_method cls name) eqn:Hfind; [|discriminate].
    intros c [= <-]. simpl. intros [= ->].
    destruct Hw as [_ Hh]. rewrite Hh in Hcell.
    injection Hcell as <- <-. rewrite Settings_has_no_method in Hfind.
    discriminate.
Qed.

Lemma keeps_attempt {A} (m : M A) P :
  keeps m P -> keeps (attempt m) anything.
Proof.
  intros Hm w Hw. destruct (Hm w Hw) as [Hw' _]. unfold attempt.
  destruct (m w) as [r w']. split; [exact Hw' | now intros].
Qed.

Lemma keeps_read {A} (f : world -> A) :
  keeps (fun w => ret (f w) w) anything.
Proof. apply keeps_pure; intros w; split; reflexivity. Qed.

Ltac keeps_prim :=
  first [ apply keeps_load_attr
        | apply keeps_store_attr; assumption
        | apply keeps_load_callee
        | apply keeps_load_special
        | apply keeps_emit
        | apply keeps_consult
        | apply keeps_lift
        | apply keeps_read
        | apply keeps_raise
        | apply keeps_ret; exact I ].

Ltac keeps_go :=
  repeat first [ keeps_prim
               | eapply keeps_bind; [ keeps_prim | intros ? ? ] ].

Lemma keeps_unpack_mapping v : keeps (unpack_mapping v) anything.
Proof. destruct v; simpl; keeps_go. Qed.

Lemma keeps_URL_create kw : keeps (URL_create kw) anything.
Proof. unfold URL_create. keeps_go. Qed.

Lemma keeps_create_async_engine url kw :
  keeps (create_async_engine url kw) anything.
Proof.
  unfold create_async_engine. eapply keeps_bind; [apply keeps_emit|].
  intros id _. eapply keeps_bind with (P := anything).
  - destruct (has_key "url" kw); keeps_go.
  - intros; keeps_go.
Qed.

Lemma keeps_async_sessionmaker kw : keeps (async_sessionmaker kw) anything.
Proof. unfold async_sessionmaker. keeps_go. Qed.

Lemma keeps_call_with run c args :
  (forall m self args', self <> VRef sa -> keeps (run m self args') anything) ->
  callee_ok c ->
  keeps (call_with run c args) anything.
Proof.
  intros Hrun Hc. destruct c as [self m | s op | v]; simpl.
  - now apply Hrun.
  - destruct args; [keeps_go | apply keeps_raise].
  - destruct v; try (intros w Hw; split; [exact Hw | discriminate]).
    destruct args; [keeps_go | apply keeps_raise].
Qed.

Lemma keeps_exec d :
  forall m self args,
    self <> VRef sa -> keeps (exec d m self args) anything.
Proof.
  induction d as [|d IH]; intros m self args Hself; [apply keeps_raise|].
  pose proof (fun c args' (H : callee_ok c) =>
                keeps_call_with (exec d) c args' IH H) as Hcall.
  destruct m; cbn [exec].
  - unfold DatabaseSession.__init__.
    eapply keeps_bind with (P := anything).
    + destruct args as [|s [|? ?]]; keeps_go.
    + intros; keeps_go.
  - unfold DatabaseSession.__create_url.
    destruct args as [|? [|? ?]]; try apply keeps_raise.
    eapply keeps_bind; [apply keeps_unpack_mapping | intros ? ?].
    eapply keeps_bind; [apply keeps_URL_create | intros ? ?]. keeps_go.
  - unfold DatabaseSession.__create_async_engine.
    destruct args as [|? [|? [|? ?]]]; try apply keeps_raise.
    eapply keeps_bind; [apply keeps_unpack_mapping | intros ? ?].
    eapply keeps_bind; [apply keeps_create_async_engine | intros ? ?].
    keeps_go.
  - unfold DatabaseSession.__create_async_session_factory.
    destruct args as [|? [|? [|? ?]]]; try apply keeps_raise.
    eapply keeps_bind; [apply keeps_unpack_mapping | intros ? ?].
    eapply keeps_bind; [apply keeps_lift | intros ? ?].
    eapply keeps_bind; [apply keeps_async_sessionmaker | intros ? ?].
    keeps_go.
  - unfold DatabaseSession.__precreate_async_session.
    destruct args; try apply keeps_raise.
    eapply keeps_bind; [apply keeps_load_callee | intros f Hf].
    eapply keeps_bind; [apply keeps_load_attr | intros ? ?].
    eapply keeps_bind; [apply (Hcall f _ Hf) | intros ? ?].
    eapply keeps_bind; [apply keeps_load_callee | intros g Hg].
    eapply keeps_bind; [apply keeps_load_attr | intros ? ?].
    eapply keeps_bind; [apply (Hcall g _ Hg) | intros ? ?].
    eapply keeps_bind; [apply keeps_load_callee | intros h Hh].
    eapply keeps_bind; [apply keeps_load_attr | intros ? ?].
    eapply keeps_bind; [apply (Hcall h _ Hh) | intros ? ?].
    keeps_go.
  - unfold DatabaseSession.create_async_session.
    destruct args; try apply keeps_raise.
    eapply keeps_weaken; [apply keeps_alloc | now intros].
  - unfold contextlib.contextmanager,
      DatabaseSession.open_async_session_undecorated.
    eapply keeps_bind with (P := anything).
    + destruct args; try apply keeps_raise.
      eapply keeps_bind; [apply keeps_load_callee | intros f Hf].
      apply (Hcall f _ Hf).
    + intros. eapply keeps_weaken; [apply keeps_alloc | now intros].
  - unfold SessionContextManager.__init__.
    destruct args; try apply keeps_raise.
    eapply keeps_bind; [apply keeps_load_callee | intros f Hf].
    eapply keeps_bind; [apply (Hcall f _ Hf) | intros ? ?].
    keeps_go.
  - unfold SessionContextManager.__aenter__.
    destruct args; try apply keeps_raise.
    eapply keeps_bind; [apply keeps_load_callee | intros f Hf].
    eapply keeps_bind; [apply (Hcall f _ Hf) | intros ? ?].
    keeps_go.
  - unfold SessionContextManager.__aexit__.
    eapply keeps_bind; [apply keeps_load_callee | intros f Hf].
    eapply keeps_bind; [apply (Hcall f _ Hf) | intros ? ?].
    keeps_go.
  - unfold SessionContextManager.commit.
    destruct args; try apply keeps_raise.
    eapply keeps_bind; [apply keeps_load_attr | intros ? ?].
    eapply keeps_bind; [apply keeps_load_callee | intros f Hf].
    eapply keeps_bind; [apply (Hcall f _ Hf) | intros ? ?].
    eapply keeps_bind; [apply keeps_load_attr | intros ? ?].
    eapply keeps_bind; [apply keeps_load_callee | intros g Hg].
    eapply keeps_bind; [apply (Hcall g _ Hg) | intros ? ?].
    keeps_go.
  - unfold SessionContextManager.rollback.
    destruct args; try apply keeps_raise.
    eapply keeps_bind; [apply keeps_load_attr | intros ? ?].
    eapply keeps_bind; [apply keeps_load_callee | intros f Hf].
    eapply keeps_bind; [apply (Hcall f _ Hf) | intros ? ?].
    eapply keeps_bind; [apply keeps_load_attr | intros ? ?].
    eapply keeps_bind; [apply keeps_load_callee | intros g Hg].
    eapply keeps_bind; [apply (Hcall g _ Hg) | intros ? ?].
    keeps_go.
Qed.

Lemma keeps_call d c args :
  callee_ok c -> keeps (call d c args) anything.
Proof. apply keeps_call_with, keeps_exec. Qed.

Lemma keeps_generator_body d self state r :
  keeps (create_async_session_generator.resume (call d) self state r)
    anything.
Proof.
  unfold create_async_session_generator.resume.
  destruct state, r; try apply keeps_raise; try (apply keeps_ret; exact I).
  eapply keeps_bind; [apply keeps_load_callee | intros f Hf].
  eapply keeps_bind; [apply (keeps_call d f _ Hf) | intros ? ?].
  apply keeps_ret; exact I.
Qed.

Lemma intact_put a c w :
  a <> sa -> settings_intact w ->
  settings_intact (with_heap ((a, c) :: heap w) w).
Proof.
  intros Ha [Hc Hh]. split; [exact Hc|]. simpl.
  destruct (Nat.eqb sa a) eqn:E; [|exact Hh].
  apply Nat.eqb_eq in E; congruence.
Qed.

Lemma keeps_resume_generator d gen r :
  keeps (resume_generator d gen r) anything.
Proof.
  intros w Hw. split; [|now intros]. unfold resume_generator.
  destruct gen; try (destruct r; exact Hw).
  destruct (heap_get addr (heap w)) as [[cls dict|self state|g]|] eqn:Hcell;
    try (destruct r; exact Hw).
  destruct d as [|d]; [exact Hw|].
  assert (Ha : addr <> sa).
  { intros ->. destruct Hw as [_ Hh]. congruence. }
  destruct (keeps_generator_body d self state r w Hw) as [Hw' _].
  destruct (create_async_session_generator.resume (call d) self state r w)
    as [[e | [st v |]] w']; simpl in Hw'.
  - destruct e; now apply intact_put.
  - now apply intact_put.
  - now apply intact_put.
Qed.

Lemma keeps_gen_of cm : keeps (contextlib.gen_of cm) anything.
Proof.
  apply keeps_pure; intros w; unfold contextlib.gen_of, attribute_error.
  destruct cm; try (split; reflexivity).
  destruct (heap_get addr (heap w)) as [[cls dict| |]|];
    split; reflexivity.
Qed.

Lemma keeps_enter d cm :
  keeps (contextlib.__enter__ (resume_generator d) cm) anything.
Proof.
  unfold contextlib.__enter__.
  eapply keeps_bind; [apply keeps_gen_of | intros gen _].
  eapply keeps_bind;
    [eapply keeps_attempt, keeps_resume_generator | intros r _].
  destruct r as [[]|v]; keeps_go.
Qed.

Lemma keeps_exit d cm exc :
  keeps (contextlib.__exit__ (resume_generator d) cm exc) anything.
Proof.
  unfold contextlib.__exit__.
  eapply keeps_bind; [apply keeps_gen_of | intros gen _].
  destruct exc as [e|];
    (eapply keeps_bind;
     [eapply keeps_attempt, keeps_resume_generator | intros r _]).
  - destruct r as [[]|v];
      repeat match goal with
             | |- keeps (if ?b then _ else _) _ => destruct b
             end;
      keeps_go.
  - destruct r as [[]|v]; keeps_go.
Qed.

Lemma keeps_invoke d recv name args :
  keeps (invoke d recv name args) anything.
Proof.
  unfold invoke.
  eapply keeps_bind; [apply keeps_load_callee | intros f Hf].
  now apply keeps_call.
Qed.

Lemma keeps_construct d cls args :
  keeps (construct d cls args) anything.
Proof.
  unfold construct.
  eapply keeps_bind; [apply keeps_alloc | intros obj Hobj].
  eapply keeps_bind; [apply keeps_invoke | intros ? ?].
  apply keeps_ret; exact I.
Qed.

Lemma keeps_run_operation d op : keeps (run_operation d op) anything.
Proof.
  destruct op; simpl.
  - eapply keeps_weaken; [apply keeps_alloc | now intros].
  - apply keeps_construct.
  - apply keeps_invoke.
  - eapply keeps_bind; [apply keeps_load_special | intros f Hf].
    now apply keeps_call.
  - apply keeps_resume_generator.
  - apply keeps_enter.
  - apply keeps_exit.
Qed.

Lemma run_operations_intact d ops :
  forall w, settings_intact w -> settings_intact (run_operations d ops w).
Proof.
  induction ops as [|op ops IH]; intros w Hw; simpl; [exact Hw|].
  apply IH. now apply keeps_run_operation.
Qed.

End SettingsFrame.

Lemma booted_settings lib file :
  let root := parent (parent (parent (parent file))) in
  exists fields,
    settings_intact_at 1 fields (booted lib file)
    /\ assoc "db" fields = None
    /\ assoc "MAIN_PATH" fields = Some (VPath root)
    /\ assoc "APP_PATH" fields = Some (VPath (root / Path_of "app")%path)
    /\ assoc "MEDIA_PATH" fields = Some (VPath (root / Path_of "media")%path)
    /\ assoc "STATIC_FOLDER" fields
       = Some (VPath (root / Path_of "frontend/static")%path)
    /\ assoc "TEMPLATES_FOLDER" fields
       = Some (VPath (root / Path_of "frontend/templates")%path).
Proof. eexists. repeat split; reflexivity. Qed.


Lemma load_callee_missing a cls dict name w :
  heap_get a (heap w) = Some (Instance cls dict) ->
  assoc name dict = None ->
  find_method cls name = None ->
  load_callee (VRef a) name w = (inl (AttributeError cls name), w).
Proof.
  intros Hcell Hfree Hfind. unfold load_callee, attribute_error, type_name.
  now rewrite Hcell, Hfree, Hfind.
Qed.

(** ** Constructing the wrappers *)

(** C9. [SessionContextManager()] always raises [AttributeError]: inside the
    class, [self.__precreate_async_session] reads
    [_SessionContextManager__precreate_async_session], which no class
    defines; the parent's method is [_DatabaseSession__precreate_async_session].
    The error comes before anything is stored on the instance and before
    any library call.  With arguments, or with no stack left, the
    construction fails as well, so no instance is ever obtained from the
    constructor, nor entered. *)
Theorem SessionContextManager_cannot_be_constructed :
  forall w,
    mangle "SessionContextManager" "__precreate_async_session"
    = "_SessionContextManager__precreate_async_session"
    /\ find_method "SessionContextManager"
         "_SessionContextManager__precreate_async_session" = None
    /\ find_method "SessionContextManager"
         "_DatabaseSession__precreate_async_session"
       = Some DatabaseSession_precreate_async_session
    /\ (forall d,
          construct (S d) "SessionContextManager" [] w
          = (inl (AttributeError "SessionContextManager"
                    "_SessionContextManager__precreate_async_session"),
             allocated (Instance "SessionContextManager" []) w))
    /\ (forall depth args,
          exists e,
            construct depth "SessionContextManager" args w
            = (inl e, allocated (Instance "SessionContextManager" []) w))
    /\ (forall depth depth' args body,
          exists e,
            (obj <- construct depth "SessionContextManager" args ;;
             async_with depth' obj body) w
            = (inl e, allocated (Instance "SessionContextManager" []) w)).
Proof.
  intros w.
  set (w1 := allocated (Instance "SessionContextManager" []) w).
  assert (Hcell : heap_get (fresh (heap w)) (heap w1)
                  = Some (Instance "SessionContextManager" []))
    by apply heap_get_new.
  assert (Hinit : forall d,
             construct (S d) "SessionContextManager" [] w
             = (inl (AttributeError "SessionContextManager"
                       "_SessionContextManager__precreate_async_session"),
                w1)).
  { intros d. unfold construct.
    step ltac:(apply alloc_runs). fold w1.
    erewrite bind_inl; [reflexivity|].
    rewrite (invoke_method (S d) _ _ _ "__init__" SessionContextManager_init
               [] w1 Hcell eq_refl eq_refl).
    change (exec (S d) SessionContextManager_init (VRef (fresh (heap w))) [])
      with (SessionContextManager.__init__ (call d) (VRef (fresh (heap w)))
              []).
    unfold SessionContextManager.__init__.
    erewrite bind_inl; [reflexivity|].
    now apply (load_callee_missing _ _ _ _ w1 Hcell). }
  assert (Hall : forall depth args,
             exists e,
               construct depth "SessionContextManager" args w = (inl e, w1)).
  { intros depth args. destruct depth as [|d].
    - exists RecursionError. unfold construct.
      step ltac:(apply alloc_runs). fold w1.
      erewrite bind_inl; [reflexivity|].
      now rewrite (invoke_method 0 _ _ _ "__init__" SessionContextManager_init
                     args w1 Hcell eq_refl eq_refl).
    - destruct args as [|x args]; [eauto|].
      exists (TypeError "wrong number of positional arguments").
      unfold construct.
      step ltac:(apply alloc_runs). fold w1.
      erewrite bind_inl; [reflexivity|].
      now rewrite (invoke_method (S d) _ _ _ "__init__"
                     SessionContextManager_init (x :: args) w1 Hcell eq_refl
                     eq_refl). }
  repeat split; auto.
  intros depth depth' args body. destruct (Hall depth args) as [e He].
  exists e. now erewrite bind_inl by exact He.
Qed.

Lemma heap_get_fresh_none h : heap_get (fresh h) h = None.
Proof.
  destruct (heap_get (fresh h) h) eqn:E; [|reflexivity].
  apply heap_get_fresh in E. now rewrite Nat.eqb_refl in E.
Qed.

Lemma store_attr_runs a cls dict name x w :
  heap_get a (heap w) = Some (Instance cls dict) ->
  store_attr (VRef a) name x w
  = (inr tt, with_heap ((a, Instance cls (assoc_set name x dict)) :: heap w) w).
Proof. intros H. unfold store_attr. now rewrite H. Qed.

Section FreshInstance.
Variable w : world.

Lemma inert_section d sec : inert d -> is_section sec -> assoc sec d = None.
Proof. intros (? & ? & ? & ?) [-> | [-> | ->]]; assumption. Qed.

Lemma extends_store d name x w' :
  extends w d w' ->
  extends w (assoc_set name x d)
    (with_heap ((fresh (heap w),
                 Instance "DatabaseSession" (assoc_set name x d))
                  :: heap w') w').
Proof.
  intros (Hcell & Hrest & Htrace). repeat split; simpl.
  - now rewrite Nat.eqb_refl.
  - intros a Ha. apply Nat.eqb_neq in Ha. rewrite Ha. apply Hrest.
    now apply Nat.eqb_neq.
  - exact Htrace.
Qed.

Lemma read_params {A} d sec settings (k : value -> M A) w' :
  extends w d w' -> inert d -> is_section sec ->
  match params_of settings sec (heap w) with
  | Some p =>
      (x <- load_attr settings sec ;; p <- load_attr x "params" ;; k p) w'
      = k p w'
  | None =>
      exists e,
        (x <- load_attr settings sec ;; p <- load_attr x "params" ;; k p) w'
        = (inl e, w')
  end.
Proof.
  intros (Hcell & Hrest & _) Hinert Hsec.
  pose proof (inert_section d sec Hinert Hsec) as Hd.
  destruct Hinert as (_ & _ & _ & Hp).
  pose proof (heap_get_fresh_none (heap w)) as Hnone.
  assert (Hload : forall b name,
             (b = fresh (heap w) -> assoc name d = None) ->
             match heap_get b (heap w) with
             | Some (Instance _ dict) =>
                 match assoc name dict with
                 | Some x => load_attr (VRef b) name w' = (inr x, w')
                 | None => exists e, load_attr (VRef b) name w' = (inl e, w')
                 end
             | _ => exists e, load_attr (VRef b) name w' = (inl e, w')
             end).
  { intros b name Hb. unfold load_attr, attribute_error.
    destruct (Nat.eq_dec b (fresh (heap w))) as [-> | Hneq].
    - rewrite Hnone, Hcell, (Hb eq_refl). eauto.
    - rewrite (Hrest b Hneq).
      destruct (heap_get b (heap w)) as [[cls dict| |]|]; eauto.
      destruct (assoc name dict); eauto. }
  unfold params_of.
  destruct settings;
    try (eexists; unfold bind, load_attr, attribute_error; reflexivity).
  specialize (Hload addr sec (fun _ => Hd)) as Hfirst.
  destruct (heap_get addr (heap w)) as [[cls dict| |]|];
    try (destruct Hfirst as [e He]; exists e; now erewrite bind_inl by exact He).
  destruct (assoc sec dict) as [x|];
    [|destruct Hfirst as [e He]; exists e; now erewrite bind_inl by exact He].
  erewrite bind_inr by exact Hfirst.
  destruct x;
    try (eexists; unfold bind, load_attr, attribute_error; reflexivity).
  specialize (Hload addr0 "params" (fun _ => Hp)) as Hsecond.
  destruct (heap_get addr0 (heap w)) as [[cls' dict'| |]|];
    try (destruct Hsecond as [e He]; exists e;
         now erewrite bind_inl by exact He).
  destruct (assoc "params" dict') as [p|];
    [|destruct Hsecond as [e He]; exists e;
      now erewrite bind_inl by exact He].
  now erewrite bind_inr by exact Hsecond.
Qed.

End FreshInstance.

Lemma init_body settings w :
  match params_of settings "db" (heap w),
        params_of settings "engine" (heap w),
        params_of settings "session" (heap w) with
  | Some p1, Some p2, Some p3 =>
      exists w',
        DatabaseSession.__init__ (VRef (fresh (heap w))) [settings]
          (allocated (Instance "DatabaseSession" []) w)
        = (inr VNone, w')
        /\ extends w [ ("url_params", p1); ("engine_params", p2);
                       ("sessionmaker_params", p3) ] w'
  | _, _, _ =>
      exists e w',
        DatabaseSession.__init__ (VRef (fresh (heap w))) [settings]
          (allocated (Instance "DatabaseSession" []) w)
        = (inl e, w')
  end.
Proof.
  set (w1 := allocated (Instance "DatabaseSession" []) w).
  assert (Hext : extends w [] w1).
  { repeat split; [apply heap_get_new|]. intros a Ha.
    unfold w1, allocated; simpl.
    apply Nat.eqb_neq in Ha. now rewrite Ha. }
  assert (Hinert : forall p1 p2 : value,
             inert [] /\ inert [("url_params", p1)]
             /\ inert [("url_params", p1); ("engine_params", p2)])
    by (intros; repeat split; reflexivity).
  unfold DatabaseSession.__init__.
  step ltac:(reflexivity).
  pose proof (fun k => read_params w [] "db" settings (A := value) k w1 Hext
                         (proj1 (Hinert VNone VNone))
                         (or_introl eq_refl)) as Hdb.
  destruct (params_of settings "db" (heap w)) as [p1|].
  2:{ match goal with
      | |- context [bind _ (fun x => bind _ ?k)] =>
          destruct (Hdb k) as [e He]; rewrite He
      end. eauto. }
  rewrite Hdb.
  step ltac:(apply store_attr_runs; exact (proj1 Hext)).
  pose proof (extends_store w [] "url_params" p1 w1 Hext) as Hext1.
  simpl assoc_set in *.
  pose proof (fun k => read_params w _ "engine" settings (A := value) k _ Hext1
                         (proj1 (proj2 (Hinert p1 VNone)))
                         (or_intror (or_introl eq_refl))) as Heng.
  destruct (params_of settings "engine" (heap w)) as [p2|].
  2:{ match goal with
      | |- context [bind _ (fun x => bind _ ?k)] =>
          destruct (Heng k) as [e He]; rewrite He
      end.
      destruct (params_of settings "session" (heap w)); eauto. }
  rewrite Heng.
  step ltac:(apply store_attr_runs; exact (proj1 Hext1)).
  pose proof (extends_store w _ "engine_params" p2 _ Hext1) as Hext2.
  simpl assoc_set in *.
  pose proof (fun k => read_params w _ "session" settings (A := value) k _
                         Hext2 (proj2 (proj2 (Hinert p1 p2)))
                         (or_intror (or_intror eq_refl))) as Hses.
  destruct (params_of settings "session" (heap w)) as [p3|].
  2:{ match goal with
      | |- context [bind _ (fun x => bind _ ?k)] =>
          destruct (Hses k) as [e He]; rewrite He
      end. eauto. }
  rewrite Hses.
  step ltac:(apply store_attr_runs; exact (proj1 Hext2)).
  pose proof (extends_store w _ "sessionmaker_params" p3 _ Hext2) as Hext3.
  simpl assoc_set in *.
  eexists; split; [reflexivity | exact Hext3].
Qed.

Lemma construct_DatabaseSession d settings w :
  match params_of settings "db" (heap w),
        params_of settings "engine" (heap w),
        params_of settings "session" (heap w) with
  | Some p1, Some p2, Some p3 =>
      exists w',
        construct (S d) "DatabaseSession" [settings] w
        = (inr (VRef (fresh (heap w))), w')
        /\ database_session_at (fresh (heap w)) "DatabaseSession" p1 p2 p3 w'
        /\ trace w' = trace w
  | _, _, _ =>
      exists e w',
        construct (S d) "DatabaseSession" [settings] w = (inl e, w')
  end.
Proof.
  assert (Hconstruct : forall r w',
             DatabaseSession.__init__ (VRef (fresh (heap w))) [settings]
               (allocated (Instance "DatabaseSession" []) w) = (r, w') ->
             construct (S d) "DatabaseSession" [settings] w
             = (match r with
                | inl e => inl e
                | inr _ => inr (VRef (fresh (heap w)))
                end, w')).
  { intros r w' Hrun. unfold construct.
    step ltac:(apply alloc_runs). unfold bind.
    rewrite (invoke_method (S d) _ "DatabaseSession" [] "__init__"
               DatabaseSession_init [settings] _
               (heap_get_new (Instance "DatabaseSession" []) w) eq_refl
               eq_refl).
    change (exec (S d) DatabaseSession_init (VRef (fresh (heap w))) [settings])
      with (DatabaseSession.__init__ (VRef (fresh (heap w))) [settings]).
    rewrite Hrun. destruct r; reflexivity. }
  pose proof (init_body settings w) as Hbody.
  destruct (params_of settings "db" (heap w)) as [p1|];
    [destruct (params_of settings "engine" (heap w)) as [p2|];
     [destruct (params_of settings "session" (heap w)) as [p3|]|]|].
  - destruct Hbody as (w' & Hrun & Hcell & _ & Htrace).
    exists w'. rewrite (Hconstruct _ _ Hrun). repeat split; auto.
  - destruct Hbody as (e & w' & Hrun). rewrite (Hconstruct _ _ Hrun). eauto.
  - destruct Hbody as (e & w' & Hrun). rewrite (Hconstruct _ _ Hrun). eauto.
  - destruct Hbody as (e & w' & Hrun). rewrite (Hconstruct _ _ Hrun). eauto.
Qed.

Lemma construct_with_default_settings d sa fields w :
  settings_intact_at sa fields w ->
  assoc "db" fields = None ->
  construct (S d) "DatabaseSession" [] w
  = (inl (AttributeError "Settings" "db"),
     allocated (Instance "DatabaseSession" []) w).
Proof.
  intros [Hc Hh] Hdb. unfold construct.
  step ltac:(apply alloc_runs).
  erewrite bind_inl; [reflexivity|].
  rewrite (invoke_method (S d) _ "DatabaseSession" [] "__init__"
             DatabaseSession_init [] _
             (heap_get_new (Instance "DatabaseSession" []) w) eq_refl eq_refl).
  change (exec (S d) DatabaseSession_init (VRef (fresh (heap w))) [])
    with (DatabaseSession.__init__ (VRef (fresh (heap w))) []).
  unfold DatabaseSession.__init__.
  step ltac:(reflexivity). cbn [config_settings allocated with_heap].
  rewrite Hc.
  erewrite bind_inl; [reflexivity|].
  unfold load_attr, attribute_error, type_name.
  now rewrite (heap_get_allocated _ _ _ _ Hh), Hdb.
Qed.

(** C10. [DatabaseSession()] without an argument takes the module's
    [settings], a [Settings] instance, which has no [db] attribute: in any
    world the program can reach after the settings module was imported, the
    construction raises [AttributeError] on [settings.db] and stores
    nothing.  [DatabaseSession(settings)] returns exactly when the given
    object exposes [db.params], [engine.params] and [session.params]; the
    new instance then holds the three values. *)
Theorem DatabaseSession_needs_explicit_settings :
  (forall lib file depth ops d,
      construct (S d) "DatabaseSession" []
        (run_operations depth ops (booted lib file))
      = (inl (AttributeError "Settings" "db"),
         allocated (Instance "DatabaseSession" [])
           (run_operations depth ops (booted lib file))))
  /\ (forall d settings w,
        (exists obj w',
            construct (S d) "DatabaseSession" [settings] w = (inr obj, w'))
        <-> (exists p1 p2 p3,
                params_of settings "db" (heap w) = Some p1
                /\ params_of settings "engine" (heap w) = Some p2
                /\ params_of settings "session" (heap w) = Some p3))
  /\ (forall d settings w p1 p2 p3,
        params_of settings "db" (heap w) = Some p1 ->
        params_of settings "engine" (heap w) = Some p2 ->
        params_of settings "session" (heap w) = Some p3 ->
        exists w',
          construct (S d) "DatabaseSession" [settings] w
          = (inr (VRef (fresh (heap w))), w')
          /\ database_session_at (fresh (heap w)) "DatabaseSession"
               p1 p2 p3 w'
          /\ trace w' = trace w).
Proof.
  split; [|split].
  - intros lib file depth ops d.
    destruct (booted_settings lib file) as (fields & Hboot & Hdb & _).
    eapply construct_with_default_settings; [|exact Hdb].
    apply run_operations_intact, Hboot.
  - intros d settings w.
    pose proof (construct_DatabaseSession d settings w) as H.
    destruct (params_of settings "db" (heap w)) as [p1|];
      [destruct (params_of settings "engine" (heap w)) as [p2|];
       [destruct (params_of settings "session" (heap w)) as [p3|]|]|].
    + destruct H as (w' & Hrun & _). split; eauto 6.
    + destruct H as (e & w' & Hrun). split.
      * intros (obj & w'' & Hok). congruence.
      * intros (? & ? & ? & _ & _ & [=]).
    + destruct H as (e & w' & Hrun). split.
      * intros (obj & w'' & Hok). congruence.
      * intros (? & ? & ? & _ & [=] & _).
    + destruct H as (e & w' & Hrun). split.
      * intros (obj & w'' & Hok). congruence.
      * intros (? & ? & ? & [=] & _).
  - intros d settings w p1 p2 p3 H1 H2 H3.
    pose proof (construct_DatabaseSession d settings w) as H.
    now rewrite H1, H2, H3 in H.
Qed.

Lemma DatabaseSession_needs_explicit_settings_witness :
  exists w',
    construct 1 "DatabaseSession" [VRef 5]
      (snd (sample_settings (booted sqlalchemy config_py)))
    = (inr (VRef 6), w')
    /\ database_session_at 6 "DatabaseSession" (VDict sample_url_params)
         (VDict sample_engine_params) (VDict sample_sessionmaker_params) w'
    /\ trace w' = trace (snd (sample_settings (booted sqlalchemy config_py))).
Proof.
  exact (proj2 (proj2 DatabaseSession_needs_explicit_settings) 0 (VRef 5)
           (snd (sample_settings (booted sqlalchemy config_py)))
           (VDict sample_url_params) (VDict sample_engine_params)
           (VDict sample_sessionmaker_params) eq_refl eq_refl eq_refl).
Defined.

(** ** Parameters the library call cannot take *)

Lemma merge_class_and_bind_clash kw engine :
  has_key "class_" kw = true \/ has_key "bind" kw = true ->
  exists msg,
    merge_keywords kw [("class_", VClass "AsyncSession"); ("bind", engine)]
    = inl (TypeError msg).
Proof.
  intros H. simpl.
  destruct (has_key "class_" kw) eqn:Hc; [eauto|].
  destruct H as [H | H]; [discriminate|].
  rewrite has_key_app, H. simpl. eauto.
Qed.

Lemma precreate_reaches_factory d a cls ukw ekw sp components w :
  database_session_at a cls (VDict ukw) (VDict ekw) sp w ->
  bind_signature (URL_create_signature (library w)) ukw = inr components ->
  has_key "url" ekw = false ->
  calls_return (library w) (trace w)
    [URL_create_call ukw; create_async_engine_call (VUrl components) ekw] ->
  exec (S (S d)) DatabaseSession_precreate_async_session (VRef a) [] w
  = (session <- exec (S d) DatabaseSession_create_async_session_factory
                  (VRef a) [VEngine (List.length (trace w) + 1); sp] ;;
     ret session)
      (with_trace
         (trace w ++ [URL_create_call ukw;
                      create_async_engine_call (VUrl components) ekw]) w).
Proof.
  intros [Hcell Hcls] Hbind Hurl (H1 & H2 & _).
  change (exec (S (S d)) DatabaseSession_precreate_async_session (VRef a) [])
    with (DatabaseSession.__precreate_async_session (call (S d)) (VRef a) []).
  unfold DatabaseSession.__precreate_async_session.
  step ltac:(eapply load_callee_method;
             [exact Hcell | reflexivity | destruct Hcls; subst cls; reflexivity]).
  step ltac:(eapply load_attr_instance; [exact Hcell | reflexivity]).
  step ltac:(unfold call, call_with; rewrite create_url_is_URL_create;
             eapply URL_create_runs; eassumption).
  step ltac:(eapply load_callee_method;
             [exact Hcell | reflexivity | destruct Hcls; subst cls; reflexivity]).
  step ltac:(eapply load_attr_instance; [exact Hcell | reflexivity]).
  step ltac:(unfold call, call_with; rewrite create_async_engine_method;
             eapply create_async_engine_runs; eassumption).
  step ltac:(eapply load_callee_method;
             [exact Hcell | reflexivity | destruct Hcls; subst cls; reflexivity]).
  step ltac:(eapply load_attr_instance; [exact Hcell | reflexivity]).
  cbn [trace with_trace]. rewrite length_app. cbn [List.length].
  unfold call, call_with. rewrite <- app_assoc. reflexivity.
Qed.

(** X5. [__create_async_session_factory] passes [class_] and [bind]
    itself, next to the unpacked [sessionmaker_params].  When the stored
    parameters name [class_] or [bind] as well, the call is refused with a
    [TypeError] before [async_sessionmaker] is reached; in
    [__precreate_async_session] the URL and the engine have been created by
    then, and that is all that was called. *)
Theorem sessionmaker_params_must_not_name_class_or_bind :
  forall d a cls ukw ekw skw components w,
    database_session_at a cls (VDict ukw) (VDict ekw) (VDict skw) w ->
    bind_signature (URL_create_signature (library w)) ukw = inr components ->
    has_key "url" ekw = false ->
    has_key "class_" skw = true \/ has_key "bind" skw = true ->
    calls_return (library w) (trace w)
      [URL_create_call ukw; create_async_engine_call (VUrl components) ekw] ->
    exists msg,
      (forall self engine w0,
          exec (S d) DatabaseSession_create_async_session_factory self
            [engine; VDict skw] w0
          = (inl (TypeError msg), w0))
      /\ invoke (S (S d)) (VRef a)
           (mangle "DatabaseSession" "__precreate_async_session") [] w
         = (inl (TypeError msg),
            with_trace
              (trace w ++ [URL_create_call ukw;
                           create_async_engine_call (VUrl components) ekw])
              w).
Proof.
  intros d a cls ukw ekw skw components w Hds Hbind Hurl Hclash Hlib.
  destruct (merge_class_and_bind_clash skw VNone Hclash) as [msg Hmsg].
  assert (Hany : forall engine,
             merge_keywords skw
               [("class_", VClass "AsyncSession"); ("bind", engine)]
             = inl (TypeError msg)).
  { intros engine. revert Hmsg. simpl.
    destruct (has_key "class_" skw); [auto|].
    destruct (has_key "bind" (skw ++ _)); [auto | discriminate]. }
  assert (Hmethod : forall self engine w0,
             exec (S d) DatabaseSession_create_async_session_factory self
               [engine; VDict skw] w0
             = (inl (TypeError msg), w0)).
  { intros self engine w0. cbn [exec].
    unfold DatabaseSession.__create_async_session_factory, unpack_mapping.
    erewrite bind_inr by reflexivity.
    erewrite bind_inl; [reflexivity|]. unfold lift. now rewrite Hany. }
  exists msg. split; [exact Hmethod|].
  destruct Hds as [Hcell Hcls].
  rewrite (invoke_method (S (S d)) a cls _
             (mangle "DatabaseSession" "__precreate_async_session")
             DatabaseSession_precreate_async_session [] w Hcell eq_refl)
    by (destruct Hcls; subst cls; reflexivity).
  rewrite (precreate_reaches_factory d a cls ukw ekw (VDict skw) components w
             (conj Hcell Hcls) Hbind Hurl Hlib).
  erewrite bind_inl; [reflexivity|]. apply Hmethod.
Qed.

Lemma clashing_database_session_at :
  database_session_at 1 "DatabaseSession" (VDict sample_url_params)
    (VDict sample_engine_params) (VDict clashing_sessionmaker_params)
    clashing_world.
Proof. split; [reflexivity | left; reflexivity]. Qed.

Lemma sessionmaker_params_must_not_name_class_or_bind_witness :
  exists msg,
    invoke 2 (VRef 1) (mangle "DatabaseSession" "__precreate_async_session")
      [] clashing_world
    = (inl (TypeError msg),
       with_trace
         [ URL_create_call sample_url_params;
           create_async_engine_call (VUrl sample_url_components)
             sample_engine_params ]
         clashing_world).
Proof.
  destruct (sessionmaker_params_must_not_name_class_or_bind 0 1
              "DatabaseSession" sample_url_params sample_engine_params
              clashing_sessionmaker_params sample_url_components
              clashing_world clashing_database_session_at eq_refl eq_refl
              (or_intror eq_refl) (conj eq_refl (conj eq_refl I)))
    as (msg & _ & H).
  exists msg. exact H.
Defined.

(** X15. When the stored [url_params] is no mapping ([None], say),
    [__precreate_async_session] raises [TypeError] at the [**] of
    [__create_url]: no library call is made, not even [URL.create]. *)
Theorem non_mapping_url_params_fail_before_any_call :
  forall d a cls up ep sp w,
    database_session_at a cls up ep sp w ->
    not_a_mapping up ->
    invoke (S (S d)) (VRef a)
      (mangle "DatabaseSession" "__precreate_async_session") [] w
    = (inl (TypeError "argument after ** must be a mapping"), w).
Proof.
  intros d a cls up ep sp w [Hcell Hcls] Hup.
  rewrite (invoke_method (S (S d)) a cls _
             (mangle "DatabaseSession" "__precreate_async_session")
             DatabaseSession_precreate_async_session [] w Hcell eq_refl)
    by (destruct Hcls; subst cls; reflexivity).
  change (exec (S (S d)) DatabaseSession_precreate_async_session (VRef a) [])
    with (DatabaseSession.__precreate_async_session (call (S d)) (VRef a) []).
  unfold DatabaseSession.__precreate_async_session.
  step ltac:(eapply load_callee_method;
             [exact Hcell | reflexivity | destruct Hcls; subst cls; reflexivity]).
  step ltac:(eapply load_attr_instance; [exact Hcell | reflexivity]).
  erewrite bind_inl; [reflexivity|].
  unfold call, call_with. cbn [exec]. unfold DatabaseSession.__create_url.
  destruct up; try contradiction; reflexivity.
Qed.

Lemma unset_database_session_at :
  database_session_at 1 "DatabaseSession" VNone VNone VNone unset_world.
Proof. split; [reflexivity | left; reflexivity]. Qed.

Lemma non_mapping_url_params_fail_before_any_call_witness :
  invoke 2 (VRef 1) (mangle "DatabaseSession" "__precreate_async_session")
    [] unset_world
  = (inl (TypeError "argument after ** must be a mapping"), unset_world).
Proof.
  exact (non_mapping_url_params_fail_before_any_call 0 1 "DatabaseSession"
           VNone VNone VNone unset_world unset_database_session_at I).
Defined.

(** ** When a library call of the first step raises *)

Lemma URL_create_refused kw components e w :
  bind_signature (URL_create_signature (library w)) kw = inr components ->
  outcome (library w) (trace w ++ [URL_create_call kw]) = Some e ->
  URL_create kw w
  = (inl e, with_trace (trace w ++ [URL_create_call kw]) w).
Proof.
  intros Hbind Hlib. unfold URL_create, bind, emit, lift, consult, ret; simpl.
  now rewrite Hbind, Hlib.
Qed.

Lemma create_async_engine_refused url kw e w :
  has_key "url" kw = false ->
  outcome (library w) (trace w ++ [create_async_engine_call url kw]) = Some e ->
  create_async_engine url kw w
  = (inl e, with_trace (trace w ++ [create_async_engine_call url kw]) w).
Proof.
  intros Hurl Hlib.
  unfold create_async_engine, bind, emit, consult, ret; simpl.
  rewrite Hurl; simpl. now rewrite Hlib.
Qed.

Lemma async_sessionmaker_refused kw e w :
  outcome (library w) (trace w ++ [async_sessionmaker_call kw]) = Some e ->
  async_sessionmaker kw w
  = (inl e, with_trace (trace w ++ [async_sessionmaker_call kw]) w).
Proof.
  intros Hlib. unfold async_sessionmaker, bind, emit, consult, ret; simpl.
  now rewrite Hlib.
Qed.

Lemma precreate_reaches_engine d a cls ukw ep sp components w :
  database_session_at a cls (VDict ukw) ep sp w ->
  bind_signature (URL_create_signature (library w)) ukw = inr components ->
  calls_return (library w) (trace w) [URL_create_call ukw] ->
  exec (S (S d)) DatabaseSession_precreate_async_session (VRef a) [] w
  = (async_engine <- exec (S d) DatabaseSession_create_async_engine (VRef a)
                       [VUrl components; ep] ;;
     h <- load_callee (VRef a)
            (mangle "DatabaseSession" "__create_async_session_factory") ;;
     sessionmaker_params <- load_attr (VRef a) "sessionmaker_params" ;;
     session <- call (S d) h [async_engine; sessionmaker_params] ;;
     ret session)
      (with_trace (trace w ++ [URL_create_call ukw]) w).
Proof.
  intros [Hcell Hcls] Hbind (H1 & _).
  change (exec (S (S d)) DatabaseSession_precreate_async_session (VRef a) [])
    with (DatabaseSession.__precreate_async_session (call (S d)) (VRef a) []).
  unfold DatabaseSession.__precreate_async_session.
  step ltac:(eapply load_callee_method;
             [exact Hcell | reflexivity | destruct Hcls; subst cls; reflexivity]).
  step ltac:(eapply load_attr_instance; [exact Hcell | reflexivity]).
  step ltac:(unfold call, call_with; rewrite create_url_is_URL_create;
             eapply URL_create_runs; eassumption).
  step ltac:(eapply load_callee_method;
             [exact Hcell | reflexivity | destruct Hcls; subst cls; reflexivity]).
  step ltac:(eapply load_attr_instance; [exact Hcell | reflexivity]).
  reflexivity.
Qed.

(** X6. Nothing in [DatabaseSession] catches an exception.  When the
    library raises in one of the three calls of
    [__precreate_async_session], the calls before it having returned, the
    method raises that very exception, the failing call is the last one
    made, and the instance is as it was. *)
Theorem library_error_stops_the_first_step :
  forall d a cls ukw ekw skw components k e w,
    database_session_at a cls (VDict ukw) (VDict ekw) (VDict skw) w ->
    bind_signature (URL_create_signature (library w)) ukw = inr components ->
    has_key "url" ekw = false ->
    has_key "class_" skw = false ->
    has_key "bind" skw = false ->
    let calls := precreate_calls (List.length (trace w)) ukw components ekw
                   skw in
    k < 3 ->
    calls_return (library w) (trace w) (firstn k calls) ->
    outcome (library w) (trace w ++ firstn (S k) calls) = Some e ->
    invoke (S (S d)) (VRef a)
      (mangle "DatabaseSession" "__precreate_async_session") [] w
    = (inl e, with_trace (trace w ++ firstn (S k) calls) w).
Proof.
  intros d a cls ukw ekw skw components k e w Hds Hbind Hurl Hclass Hbindkw
    calls Hk Hret Hraise.
  pose proof Hds as [Hcell Hcls].
  rewrite (invoke_method (S (S d)) a cls _
             (mangle "DatabaseSession" "__precreate_async_session")
             DatabaseSession_precreate_async_session [] w Hcell eq_refl)
    by (destruct Hcls; subst cls; reflexivity).
  destruct k as [|[|[|k]]]; [| | |lia]; clear Hk;
    cbn [firstn calls precreate_calls] in *.
  - change (exec (S (S d)) DatabaseSession_precreate_async_session (VRef a) [])
      with (DatabaseSession.__precreate_async_session (call (S d)) (VRef a)
              []).
    unfold DatabaseSession.__precreate_async_session.
    step ltac:(eapply load_callee_method;
               [exact Hcell | reflexivity
               | destruct Hcls; subst cls; reflexivity]).
    step ltac:(eapply load_attr_instance; [exact Hcell | reflexivity]).
    erewrite bind_inl; [reflexivity|].
    unfold call, call_with. rewrite create_url_is_URL_create.
    eapply URL_create_refused; eassumption.
  - rewrite (precreate_reaches_engine d a cls ukw _ _ components w Hds Hbind
               Hret).
    erewrite bind_inl; [reflexivity|].
    rewrite create_async_engine_method.
    rewrite create_async_engine_refused with (e := e); auto.
    + cbn [trace with_trace]. now rewrite <- app_assoc.
    + cbn [trace with_trace library]. now rewrite <- app_assoc.
  - rewrite (precreate_reaches_factory d a cls ukw ekw _ components w Hds
               Hbind Hurl Hret).
    erewrite bind_inl; [reflexivity|].
    rewrite create_async_session_factory_method by assumption.
    rewrite async_sessionmaker_refused with (e := e).
    + cbn [trace with_trace]. now rewrite <- app_assoc.
    + cbn [trace with_trace library]. rewrite <- app_assoc. exact Hraise.
Qed.

Lemma without_driver_database_session_at :
  database_session_at 1 "DatabaseSession" (VDict sample_url_params)
    (VDict sample_engine_params) (VDict sample_sessionmaker_params)
    without_driver_world.
Proof. split; [reflexivity | left; reflexivity]. Qed.

Lemma library_error_stops_the_first_step_witness :
  invoke 2 (VRef 1) (mangle "DatabaseSession" "__precreate_async_session")
    [] without_driver_world
  = (inl (LibraryError 2),
     with_trace
       [ URL_create_call sample_url_params;
         create_async_engine_call (VUrl sample_url_components)
           sample_engine_params ]
       without_driver_world).
Proof.
  apply (library_error_stops_the_first_step 0 1 "DatabaseSession"
           sample_url_params sample_engine_params sample_sessionmaker_params
           sample_url_components 1 (LibraryError 2) without_driver_world
           without_driver_database_session_at eq_refl eq_refl eq_refl eq_refl).
  - lia.
  - simpl; repeat split; reflexivity.
  - reflexivity.
Defined.

Lemma failed_step_closes d g self st e w w1 :
  heap_get g (heap w) = Some (Generator self st) ->
  next (S d) (VRef g) w = (inl e, w1) ->
  heap_get g (heap w1) = Some (Generator self GEN_CLOSED).
Proof.
  intros Hg. unfold next, resume_generator. rewrite Hg.
  destruct (create_async_session_generator.resume (call d) self st Next w)
    as [[e' | [st' v|]] w'].
  - destruct e'; intros [= <- <-]; simpl; now rewrite Nat.eqb_refl.
  - discriminate.
  - intros [= <- <-]; simpl; now rewrite Nat.eqb_refl.
Qed.

(** X7. A generator of [create_async_session] whose step raised is
    finished: the next [next] on it raises [StopIteration] and runs nothing,
    so a failed connection attempt is not retried by stepping the same
    generator again. *)
Theorem failed_generator_cannot_be_resumed :
  forall d n g self st e w w1,
    heap_get g (heap w) = Some (Generator self st) ->
    next (S d) (VRef g) w = (inl e, w1) ->
    next (S n) (VRef g) w1
    = (inl StopIteration,
       with_heap ((g, Generator self GEN_CLOSED) :: heap w1) w1).
Proof.
  intros d n g self st e w w1 Hg Hfail.
  pose proof (failed_step_closes d g self st e w w1 Hg Hfail) as Hclosed.
  unfold next, resume_generator. now rewrite Hclosed.
Qed.

Lemma failed_generator_cannot_be_resumed_witness :
  next 1 (VRef 2)
    (snd (next 3 (VRef 2)
            (allocated (Generator (VRef 1) GEN_CREATED) incomplete_world)))
  = (inl StopIteration,
     with_heap
       ((2, Generator (VRef 1) GEN_CLOSED)
          :: heap (snd (next 3 (VRef 2)
                          (allocated (Generator (VRef 1) GEN_CREATED)
                             incomplete_world))))
       (snd (next 3 (VRef 2)
               (allocated (Generator (VRef 1) GEN_CREATED)
                  incomplete_world)))).
Proof.
  exact (failed_generator_cannot_be_resumed 2 0 2 (VRef 1) GEN_CREATED
           (TypeError "missing required argument drivername")
           (allocated (Generator (VRef 1) GEN_CREATED) incomplete_world)
           _ eq_refl eq_refl).
Defined.

Lemma first_next_fails d g self cls dict e w w' :
  heap_get g (heap w) = Some (Generator (VRef self) GEN_CREATED) ->
  heap_get self (heap w) = Some (Instance cls dict) ->
  assoc (mangle "DatabaseSession" "__precreate_async_session") dict = None ->
  cls = "DatabaseSession" \/ cls = "SessionContextManager" ->
  exec d DatabaseSession_precreate_async_session (VRef self) [] w
  = (inl e, w') ->
  e <> StopIteration ->
  next (S d) (VRef g) w
  = (inl e, with_heap ((g, Generator (VRef self) GEN_CLOSED) :: heap w') w').
Proof.
  intros Hg Hcell Hfree Hcls Hrun He.
  unfold next, resume_generator. rewrite Hg.
  unfold create_async_session_generator.resume.
  erewrite bind_inr
    by (eapply load_callee_method;
        [exact Hcell | exact Hfree | destruct Hcls; subst cls; reflexivity]).
  erewrite bind_inl by (unfold call, call_with; exact Hrun).
  destruct e; try reflexivity. congruence.
Qed.

(** X8. [with wrapper.open_async_session() as x: body] when the first
    step of the generator fails: the block raises that exception, the body
    is not run, and the generator is left closed. *)
Theorem failed_first_step_skips_the_with_body :
  forall d a cls up ep sp e (body : value -> M value) w w',
    database_session_at a cls up ep sp w ->
    let g := fresh (heap w) in
    let w0 := allocated (Generator (VRef a) GEN_CREATED) w in
    let w1 := allocated (GeneratorContextManager (VRef g)) w0 in
    exec (S (S d)) DatabaseSession_precreate_async_session (VRef a) [] w1
    = (inl e, w') ->
    e <> StopIteration ->
    with_statement (S (S (S d)))
      (invoke (S (S d)) (VRef a) "open_async_session" []) body w
    = (inl e, with_heap ((g, Generator (VRef a) GEN_CLOSED) :: heap w') w').
Proof.
  intros d a cls up ep sp e body w w' Hds g w0 w1 Hrun He.
  unfold with_statement.
  step ltac:(eapply invoke_open_async_session; eauto).
  fold w0 g w1.
  assert (Hds1 : database_session_at a cls up ep sp w1)
    by (unfold w1, w0; now do 2 apply database_session_at_allocated).
  assert (Hcm1 : heap_get (fresh (heap w0)) (heap w1)
                 = Some (GeneratorContextManager (VRef g)))
    by apply heap_get_new.
  assert (Hg1 : heap_get g (heap w1) = Some (Generator (VRef a) GEN_CREATED))
    by (apply heap_get_allocated, heap_get_new).
  erewrite bind_inl; [reflexivity|].
  rewrite (enter_is_first_next _ _ g (VRef a) w1 Hcm1 Hg1).
  eapply first_next_fails;
    [exact Hg1 | exact (proj1 Hds1) | reflexivity | exact (proj2 Hds1)
    | exact Hrun | exact He].
Qed.

Lemma failed_first_step_skips_the_with_body_witness :
  fst (with_statement 3 (invoke 2 (VRef 1) "open_async_session" [])
         (fun x => ret x) incomplete_world)
  = inl (TypeError "missing required argument drivername").
Proof.
  rewrite (failed_first_step_skips_the_with_body 0 1 "DatabaseSession"
             _ _ _ (TypeError "missing required argument drivername")
             (fun x => ret x) incomplete_world _
             incomplete_database_session_at eq_refl);
    [reflexivity | discriminate].
Defined.

(** ** No engine is shared *)

Lemma calls_return_app lib history calls calls' :
  calls_return lib history (calls ++ calls') ->
  calls_return lib history calls
  /\ calls_return lib (history ++ calls) calls'.
Proof.
  revert history. induction calls as [|ev calls IH]; intros history; simpl.
  - now rewrite app_nil_r.
  - intros [H1 H2]. apply IH in H2 as [H2 H3].
    rewrite <- app_assoc in H3. auto.
Qed.

Lemma database_session_at_frame a cls up ep sp w w' :
  heap_get a (heap w') = heap_get a (heap w) ->
  database_session_at a cls up ep sp w ->
  database_session_at a cls up ep sp w'.
Proof. intros H [Hcell Hcls]. split; [congruence | exact Hcls]. Qed.

(** X9. [DatabaseSession] keeps nothing of what it creates.  Two
    generators from the same instance, each stepped once, make the three
    library calls twice over: two URLs, two engines, and two session
    factories, each bound to the engine of its own step. *)
Theorem every_generator_builds_its_own_engine :
  forall d a cls ukw ekw skw components w,
    database_session_at a cls (VDict ukw) (VDict ekw) (VDict skw) w ->
    bind_signature (URL_create_signature (library w)) ukw = inr components ->
    has_key "url" ekw = false ->
    has_key "class_" skw = false ->
    has_key "bind" skw = false ->
    let n := List.length (trace w) in
    let calls := precreate_calls n ukw components ekw skw
                 ++ precreate_calls (n + 3) ukw components ekw skw in
    calls_return (library w) (trace w) calls ->
    let run :=
      g1 <- invoke (S d) (VRef a) "create_async_session" [] ;;
      g2 <- invoke (S d) (VRef a) "create_async_session" [] ;;
      f1 <- next (S (S (S d))) g1 ;;
      f2 <- next (S (S (S d))) g2 ;;
      ret (f1, f2) in
    fst (run w) = inr (VSessionFactory (n + 2), VSessionFactory (n + 5))
    /\ trace (snd (run w)) = trace w ++ calls.
Proof.
  intros d a cls ukw ekw skw components w Hds Hbind Hurl Hclass Hbindkw n
    calls Hlib run.
  apply calls_return_app in Hlib as [Hlib1 Hlib2].
  set (g1 := fresh (heap w)).
  set (w1 := allocated (Generator (VRef a) GEN_CREATED) w).
  set (g2 := fresh (heap w1)).
  set (w2 := allocated (Generator (VRef a) GEN_CREATED) w1).
  assert (Hds1 : database_session_at a cls (VDict ukw) (VDict ekw)
                   (VDict skw) w1)
    by now apply database_session_at_allocated.
  assert (Hds2 : database_session_at a cls (VDict ukw) (VDict ekw)
                   (VDict skw) w2)
    by now apply database_session_at_allocated.
  assert (Hg1 : heap_get g1 (heap w2) = Some (Generator (VRef a) GEN_CREATED))
    by (apply heap_get_allocated, heap_get_new).
  assert (Hg2 : heap_get g2 (heap w2) = Some (Generator (VRef a) GEN_CREATED))
    by apply heap_get_new.
  assert (Hneq : Nat.eqb g2 g1 = false).
  { rewrite Nat.eqb_sym. eapply heap_get_fresh. apply heap_get_new. }
  assert (Ha1 : Nat.eqb a g1 = false) by (eapply heap_get_fresh, Hds).
  set (w3 := with_trace
               (trace w ++ precreate_calls n ukw components ekw skw) w2).
  set (w4 := with_heap ((g1, Generator (VRef a) GEN_SUSPENDED) :: heap w3) w3).
  assert (Hds4 : database_session_at a cls (VDict ukw) (VDict ekw)
                   (VDict skw) w4).
  { apply (database_session_at_frame a cls _ _ _ w2); [|exact Hds2].
    unfold w4, w3. cbn [heap with_heap with_trace heap_get].
    now rewrite Ha1. }
  assert (Hlen : List.length (trace w4) = n + 3).
  { unfold w4, w3; simpl. rewrite length_app. reflexivity. }
  unfold run.
  erewrite bind_inr by (eapply invoke_create_async_session; exact Hds).
  fold g1 w1.
  erewrite bind_inr by (eapply invoke_create_async_session; exact Hds1).
  fold g2 w2.
  erewrite bind_inr.
  2:{ eapply first_next_runs;
        [exact Hg1 | exact (proj1 Hds2) | reflexivity | exact (proj2 Hds2) |].
      apply (precreate_runs d a cls ukw ekw skw components w2); auto. }
  fold n w3 w4.
  erewrite bind_inr.
  2:{ eapply first_next_runs;
        [| exact (proj1 Hds4) | reflexivity | exact (proj2 Hds4) |].
      - unfold w4, w3. cbn [heap with_heap with_trace heap_get].
        rewrite Hneq. exact Hg2.
      - apply (precreate_runs d a cls ukw ekw skw components w4); auto.
        rewrite Hlen. exact Hlib2. }
  rewrite Hlen. unfold ret; simpl. split.
  - replace (n + 3 + 2) with (n + 5) by lia. reflexivity.
  - unfold calls. now rewrite <- app_assoc.
Qed.

Lemma every_generator_builds_its_own_engine_witness :
  fst ((g1 <- invoke 1 (VRef 6) "create_async_session" [] ;;
        g2 <- invoke 1 (VRef 6) "create_async_session" [] ;;
        f1 <- next 3 g1 ;;
        f2 <- next 3 g2 ;;
        ret (f1, f2)) sample_database_session_world)
  = inr (VSessionFactory 3, VSessionFactory 6).
Proof.
  refine (proj1 (every_generator_builds_its_own_engine 0 6 "DatabaseSession"
                   sample_url_params sample_engine_params
                   sample_sessionmaker_params sample_url_components
                   sample_database_session_world sample_database_session_at
                   eq_refl eq_refl eq_refl eq_refl _)).
  simpl; repeat split; reflexivity.
Defined.

(** ** Private methods, seen from outside the class *)

(** X14. From outside the class the four private methods do not exist
    under the names they are written with: the call raises
    [AttributeError].  They are bound under the mangled name,
    [_DatabaseSession] followed by the name, for instances of the subclass
    too. *)
Theorem private_methods_are_hidden_from_callers :
  forall d a cls up ep sp name args w,
    database_session_at a cls up ep sp w ->
    In name [ "__create_url"; "__create_async_engine";
              "__create_async_session_factory";
              "__precreate_async_session" ] ->
    invoke d (VRef a) name args w = (inl (AttributeError cls name), w)
    /\ mangle "DatabaseSession" name = ("_DatabaseSession" ++ name)%string
    /\ exists m,
         load_callee (VRef a) (mangle "DatabaseSession" name) w
         = (inr (BoundMethod (VRef a) m), w).
Proof.
  intros d a cls up ep sp name args w [Hcell Hcls] Hname.
  assert (Hfacts :
            assoc name [ ("url_params", up); ("engine_params", ep);
                         ("sessionmaker_params", sp) ] = None
            /\ assoc (mangle "DatabaseSession" name)
                 [ ("url_params", up); ("engine_params", ep);
                   ("sessionmaker_params", sp) ] = None
            /\ find_method cls name = None
            /\ mangle "DatabaseSession" name
               = ("_DatabaseSession" ++ name)%string
            /\ exists m,
                 find_method cls (mangle "DatabaseSession" name) = Some m).
  { destruct Hname as [<- | [<- | [<- | [<- | []]]]];
      destruct Hcls; subst cls; repeat split; eexists; reflexivity. }
  destruct Hfacts as (Hfree & Hfree' & Hnone & Hmangle & m & Hm).
  split; [|split].
  - unfold invoke. erewrite bind_inl; [reflexivity|].
    eapply load_callee_missing; [exact Hcell | exact Hfree | exact Hnone].
  - exact Hmangle.
  - exists m.
    eapply load_callee_method; [exact Hcell | exact Hfree' | exact Hm].
Qed.

Lemma private_methods_are_hidden_from_callers_witness :
  invoke 2 (VRef 6) "__precreate_async_session" []
    sample_database_session_world
  = (inl (AttributeError "DatabaseSession" "__precreate_async_session"),
     sample_database_session_world).
Proof.
  refine (proj1 (private_methods_are_hidden_from_callers 2 6 "DatabaseSession"
                   _ _ _ "__precreate_async_session" []
                   sample_database_session_world sample_database_session_at
                   _)).
  simpl; auto.
Defined.

(** ** The session wrapper, block after block *)

Lemma aexit_without_session d a dict args w :
  wrapper_at a dict w ->
  assoc "session" dict = Some VNone ->
  exec (S (S d)) SessionContextManager_aexit (VRef a) args w
  = (inl (AttributeError "NoneType" "rollback"), w).
Proof.
  intros Hw Hs.
  assert (Hcell := proj1 Hw).
  pose proof (not_hidden _ _ _ "rollback" _ Hw eq_refl) as Hfree.
  cbn [exec]. unfold SessionContextManager.__aexit__.
  erewrite bind_inr
    by (eapply load_callee_method; [exact Hcell | exact Hfree | reflexivity]).
  erewrite bind_inl; [reflexivity|].
  eapply (wrapper_method_without_session Rollback); eauto.
Qed.

Lemma async_with_enters d a dict f (body : value -> M value) w r w2 :
  wrapper_at a dict w ->
  assoc "session_factory" dict = Some (VSessionFactory f) ->
  calls_return (library w) (trace w) [session_factory_call f] ->
  body VNone (entered a dict f w) = (r, w2) ->
  async_with (S d) (VRef a) body w
  = match r with
    | inr v =>
        (exec (S d) SessionContextManager_aexit (VRef a)
           [VNone; VNone; VNone] ;; ret v) w2
    | inl e =>
        (swallow <- exec (S d) SessionContextManager_aexit (VRef a)
                      [VClass (exn_class e); VException e; VNone] ;;
         if truthy swallow then ret VNone else raise e) w2
    end.
Proof.
  intros Hw Hf Henter Hbody. unfold async_with.
  erewrite bind_inr by (eapply load_special_wrapper; [exact Hw | reflexivity]).
  erewrite bind_inr by (eapply load_special_wrapper; [exact Hw | reflexivity]).
  erewrite bind_inr by (apply aenter_runs; eauto).
  erewrite bind_inr by (unfold attempt; rewrite Hbody; reflexivity).
  destruct r; reflexivity.
Qed.

(** X10. The other half of leaving the wrapper: when no session is
    attached as the body is left (the body called [commit()] or
    [rollback()]), the [async with] block raises [AttributeError] from
    [__aexit__] whatever the body came to, a value or an exception of its
    own, and calls nothing. *)
Theorem exit_without_session_masks_the_body :
  forall d a dict f (body : value -> M value) w r w2 dict2,
    wrapper_at a dict w ->
    assoc "session_factory" dict = Some (VSessionFactory f) ->
    calls_return (library w) (trace w) [session_factory_call f] ->
    body VNone (entered a dict f w) = (r, w2) ->
    wrapper_at a dict2 w2 ->
    assoc "session" dict2 = Some VNone ->
    async_with (S (S d)) (VRef a) body w
    = (inl (AttributeError "NoneType" "rollback"), w2).
Proof.
  intros d a dict f body w r w2 dict2 Hw Hf Henter Hbody Hw2 Hs.
  rewrite (async_with_enters (S d) a dict f body w r w2 Hw Hf Henter Hbody).
  destruct r as [e | v];
    (erewrite bind_inl; [reflexivity|]);
    eapply aexit_without_session; eauto.
Qed.

Lemma exit_without_session_masks_the_body_witness :
  async_with 2 (VRef 1)
    (fun _ => invoke 2 (VRef 1) "commit" [] ;; raise (LibraryError 3))
    sample_wrapper_world
  = (inl (AttributeError "NoneType" "rollback"),
     detached 1 (assoc_set "session" (VSession 1) sample_wrapper)
       [session_commit 1; session_close 1]
       (entered 1 sample_wrapper 0 sample_wrapper_world)).
Proof.
  apply (exit_without_session_masks_the_body 0 1 sample_wrapper 0
           (fun _ => invoke 2 (VRef 1) "commit" [] ;; raise (LibraryError 3))
           sample_wrapper_world (inl (LibraryError 3)) _
           (assoc_set "session" VNone
              (assoc_set "session" (VSession 1) sample_wrapper))).
  - exact sample_wrapper_at.
  - reflexivity.
  - simpl; repeat split; reflexivity.
  - reflexivity.
  - apply wrapper_at_detached. exact entered_wrapper_at.
  - reflexivity.
Defined.

Lemma assoc_assoc_set_other {V} k k' (v : V) l :
  k <> k' -> assoc k (assoc_set k' v l) = assoc k l.
Proof.
  intros Hneq. induction l as [|[k0 v0] l IH]; simpl.
  - destruct (String.eqb k k') eqn:E; [|reflexivity].
    apply String.eqb_eq in E. contradiction.
  - destruct (String.eqb k' k0) eqn:E; simpl.
    + apply String.eqb_eq in E; subst k0.
      destruct (String.eqb k k') eqn:E'; [|reflexivity].
      apply String.eqb_eq in E'. contradiction.
    + destruct (String.eqb k k0); auto.
Qed.

Lemma wrapper_at_entered a dict f w :
  wrapper_at a dict w ->
  wrapper_at a (assoc_set "session" (VSession (List.length (trace w))) dict)
    (entered a dict f w).
Proof.
  intros [Hcell Hfree]. split.
  - unfold entered; simpl. now rewrite Nat.eqb_refl.
  - intros name Hk. apply has_key_assoc_set in Hk as [-> | Hk]; auto.
Qed.

(** X11. The wrapper holds one session at a time.  An [async with]
    block nested in another on the same wrapper replaces the outer session:
    the inner exit rolls back and closes the inner session, the outer exit
    finds none and raises [AttributeError], and the outer session is neither
    rolled back nor closed. *)
Theorem nested_async_with_leaks_the_outer_session :
  forall d a dict f w,
    wrapper_at a dict w ->
    assoc "session_factory" dict = Some (VSessionFactory f) ->
    let n := List.length (trace w) in
    let calls := [ session_factory_call f; session_factory_call f;
                   session_rollback (S n); session_close (S n) ] in
    calls_return (library w) (trace w) calls ->
    let block :=
      async_with (S (S d)) (VRef a)
        (fun _ => async_with (S (S d)) (VRef a) (fun _ => ret VNone)) in
    fst (block w) = inl (AttributeError "NoneType" "rollback")
    /\ trace (snd (block w)) = trace w ++ calls
    /\ load_attr (VRef a) "session" (snd (block w))
       = (inr VNone, snd (block w)).
Proof.
  intros d a dict f w Hw Hf n calls Hcalls block.
  simpl in Hcalls. rewrite <- !app_assoc in Hcalls. simpl in Hcalls.
  destruct Hcalls as (H1 & H2 & H3 & H4 & _).
  set (dict1 := assoc_set "session" (VSession n) dict).
  set (w1 := entered a dict f w).
  assert (Hw1 : wrapper_at a dict1 w1) by now apply wrapper_at_entered.
  assert (Hf1 : assoc "session_factory" dict1 = Some (VSessionFactory f))
    by (unfold dict1; rewrite assoc_assoc_set_other; [exact Hf | discriminate]).
  assert (Hlen1 : List.length (trace w1) = S n)
    by (unfold w1, entered; simpl; rewrite length_app; simpl; lia).
  set (dict2 := assoc_set "session" (VSession (S n)) dict1).
  set (w2 := entered a dict1 f w1).
  assert (Hw2 : wrapper_at a dict2 w2).
  { unfold dict2, w2. rewrite <- Hlen1. now apply wrapper_at_entered. }
  assert (Hs2 : assoc "session" dict2 = Some (VSession (S n)))
    by apply assoc_assoc_set_same.
  set (w3 := detached a dict2 [session_rollback (S n); session_close (S n)] w2).
  assert (Htrace2 : trace w2
                    = trace w ++ [session_factory_call f;
                                  session_factory_call f]).
  { unfold w2, w1, entered; simpl. now rewrite <- app_assoc. }
  assert (Hinner : async_with (S (S d)) (VRef a) (fun _ => ret VNone) w1
                   = (inr VNone, w3)).
  { rewrite (async_with_enters (S d) a dict1 f (fun _ => ret VNone) w1
               (inr VNone) w2 Hw1 Hf1).
    - erewrite bind_inr; [reflexivity|].
      apply aexit_runs; auto.
      rewrite Htrace2. simpl. rewrite <- !app_assoc. simpl. auto.
    - simpl. split; [|exact I].
      unfold w1, entered; simpl. rewrite <- app_assoc. exact H2.
    - reflexivity. }
  assert (Hw3 : wrapper_at a (assoc_set "session" VNone dict2) w3)
    by now apply wrapper_at_detached.
  assert (Hblock : block w = (inl (AttributeError "NoneType" "rollback"), w3)).
  { unfold block.
    rewrite (async_with_enters (S d) a dict f _ w (inr VNone) w3 Hw Hf).
    - erewrite bind_inl; [reflexivity|].
      eapply aexit_without_session; [exact Hw3|].
      apply assoc_assoc_set_same.
    - simpl. auto.
    - exact Hinner. }
  rewrite Hblock. simpl fst. simpl snd. repeat split.
  - unfold w3, detached. cbn [trace with_heap with_trace].
    rewrite Htrace2, <- app_assoc. reflexivity.
  - eapply load_attr_instance; [exact (proj1 Hw3)|].
    apply assoc_assoc_set_same.
Qed.

Lemma nested_async_with_leaks_the_outer_session_witness :
  trace (snd (async_with 2 (VRef 1)
                (fun _ => async_with 2 (VRef 1) (fun _ => ret VNone))
                sample_wrapper_world))
  = trace sample_wrapper_world
      ++ [ session_factory_call 0; session_factory_call 0;
           session_rollback 2; session_close 2 ].
Proof.
  refine (proj1 (proj2 (nested_async_with_leaks_the_outer_session 0 1
                          sample_wrapper 0 sample_wrapper_world
                          sample_wrapper_at eq_refl _))).
  simpl; repeat split; reflexivity.
Defined.

Lemma async_with_empty_body d a dict f w :
  wrapper_at a dict w ->
  assoc "session_factory" dict = Some (VSessionFactory f) ->
  let n := List.length (trace w) in
  calls_return (library w) (trace w)
    [session_factory_call f; session_rollback n; session_close n] ->
  async_with (S (S d)) (VRef a) (fun _ => ret VNone) w
  = (inr VNone,
     detached a (assoc_set "session" (VSession n) dict)
       [session_rollback n; session_close n] (entered a dict f w)).
Proof.
  intros Hw Hf n Hcalls.
  simpl in Hcalls. rewrite <- !app_assoc in Hcalls. simpl in Hcalls.
  destruct Hcalls as (H1 & H2 & H3 & _).
  rewrite (async_with_enters (S d) a dict f (fun _ => ret VNone) w
             (inr VNone) (entered a dict f w) Hw Hf).
  - erewrite bind_inr; [reflexivity|].
    apply aexit_runs.
    + now apply wrapper_at_entered.
    + apply assoc_assoc_set_same.
    + unfold entered; simpl. rewrite <- !app_assoc. simpl. auto.
  - simpl. auto.
  - reflexivity.
Qed.

(** X18. One [async with] block after the other on the same wrapper:
    each block gets a new session from the same factory, rolls it back and
    closes it at exit, and the wrapper ends with no session attached. *)
Theorem sequential_async_with_blocks_get_fresh_sessions :
  forall d a dict f w,
    wrapper_at a dict w ->
    assoc "session_factory" dict = Some (VSessionFactory f) ->
    let n := List.length (trace w) in
    let calls := [ session_factory_call f;
                   session_rollback n; session_close n;
                   session_factory_call f;
                   session_rollback (n + 3); session_close (n + 3) ] in
    calls_return (library w) (trace w) calls ->
    let blocks :=
      async_with (S (S d)) (VRef a) (fun _ => ret VNone) ;;
      async_with (S (S d)) (VRef a) (fun _ => ret VNone) in
    fst (blocks w) = inr VNone
    /\ trace (snd (blocks w)) = trace w ++ calls
    /\ load_attr (VRef a) "session" (snd (blocks w))
       = (inr VNone, snd (blocks w)).
Proof.
  intros d a dict f w Hw Hf n calls Hcalls blocks.
  change calls
    with ([session_factory_call f; session_rollback n; session_close n]
            ++ [session_factory_call f; session_rollback (n + 3);
                session_close (n + 3)]) in Hcalls.
  apply calls_return_app in Hcalls as [Hfirst Hsecond].
  set (dict1 := assoc_set "session" (VSession n) dict).
  set (w1 := detached a dict1 [session_rollback n; session_close n]
               (entered a dict f w)).
  set (dict2 := assoc_set "session" VNone dict1).
  assert (Hw1 : wrapper_at a dict2 w1)
    by (apply wrapper_at_detached; now apply wrapper_at_entered).
  assert (Hf1 : assoc "session_factory" dict2 = Some (VSessionFactory f)).
  { unfold dict2, dict1.
    rewrite !assoc_assoc_set_other by discriminate. exact Hf. }
  assert (Htrace1 : trace w1
                    = trace w ++ [session_factory_call f; session_rollback n;
                                  session_close n]).
  { unfold w1, detached, entered; simpl. now rewrite <- app_assoc. }
  assert (Hlen1 : List.length (trace w1) = n + 3).
  { rewrite Htrace1, length_app. reflexivity. }
  assert (Hrun : blocks w
                 = (inr VNone,
                    detached a (assoc_set "session" (VSession (n + 3)) dict2)
                      [session_rollback (n + 3); session_close (n + 3)]
                      (entered a dict2 f w1))).
  { unfold blocks.
    erewrite bind_inr
      by (apply (async_with_empty_body d a dict f w Hw Hf); exact Hfirst).
    fold n dict1 w1. rewrite <- Hlen1.
    apply (async_with_empty_body d a dict2 f w1 Hw1 Hf1).
    rewrite Hlen1, Htrace1. exact Hsecond. }
  rewrite Hrun. simpl fst. simpl snd. repeat split.
  - unfold detached, entered. cbn [trace with_heap with_trace].
    rewrite Htrace1, <- !app_assoc. reflexivity.
  - unfold load_attr, detached; simpl.
    now rewrite Nat.eqb_refl, assoc_assoc_set_same.
Qed.

Lemma sequential_async_with_blocks_get_fresh_sessions_witness :
  trace (snd ((async_with 2 (VRef 1) (fun _ => ret VNone) ;;
               async_with 2 (VRef 1) (fun _ => ret VNone))
                sample_wrapper_world))
  = trace sample_wrapper_world
      ++ [ session_factory_call 0; session_rollback 1; session_close 1;
           session_factory_call 0; session_rollback 4; session_close 4 ].
Proof.
  refine (proj1 (proj2 (sequential_async_with_blocks_get_fresh_sessions 0 1
                          sample_wrapper 0 sample_wrapper_world
                          sample_wrapper_at eq_refl _))).
  simpl; repeat split; reflexivity.
Defined.

(** ** When the factory or [close] raises *)

(** X12. When the session factory raises in [__aenter__], the
    [async with] block raises that exception: the body is not run,
    [__aexit__] is not called, and the wrapper is as it was. *)
Theorem failed_aenter_skips_body_and_exit :
  forall d a dict f e (body : value -> M value) w,
    wrapper_at a dict w ->
    assoc "session_factory" dict = Some (VSessionFactory f) ->
    outcome (library w) (trace w ++ [session_factory_call f]) = Some e ->
    async_with (S d) (VRef a) body w
    = (inl e, with_trace (trace w ++ [session_factory_call f]) w).
Proof.
  intros d a dict f e body w Hw Hf Hlib. unfold async_with.
  erewrite bind_inr by (eapply load_special_wrapper; [exact Hw | reflexivity]).
  erewrite bind_inr by (eapply load_special_wrapper; [exact Hw | reflexivity]).
  erewrite bind_inl; [reflexivity|].
  destruct Hw as [Hcell _]. py_run. reflexivity.
Qed.

Lemma refused_factory_wrapper_at :
  wrapper_at 1 sample_wrapper refused_factory_world.
Proof. split; [reflexivity | exact sample_wrapper_free]. Qed.

Lemma failed_aenter_skips_body_and_exit_witness :
  async_with 1 (VRef 1) (fun _ => invoke 1 (VRef 1) "commit" [])
    refused_factory_world
  = (inl (LibraryError 1),
     with_trace (trace refused_factory_world ++ [session_factory_call 0])
       refused_factory_world).
Proof.
  exact (failed_aenter_skips_body_and_exit 0 1 sample_wrapper 0
           (LibraryError 1) (fun _ => invoke 1 (VRef 1) "commit" [])
           refused_factory_world refused_factory_wrapper_at eq_refl eq_refl).
Defined.

Lemma wrapper_method_fails_at_close (op : session_op) (m : method) d a cls
  dict s e w :
  (op = Commit /\ m = SessionContextManager_commit)
  \/ (op = Rollback /\ m = SessionContextManager_rollback) ->
  heap_get a (heap w) = Some (Instance cls dict) ->
  assoc "session" dict = Some (VSession s) ->
  outcome (library w) (trace w ++ [session_event op s]) = None ->
  outcome (library w) (trace w ++ [session_event op s; session_close s])
  = Some e ->
  exec (S d) m (VRef a) [] w
  = (inl e, with_trace (trace w ++ [session_event op s; session_close s]) w).
Proof.
  intros Hop Hcell Hs Hlib1 Hlib2.
  destruct Hop as [[-> ->] | [-> ->]]; simpl in Hlib1, Hlib2; py_run;
    rewrite <- app_assoc; simpl; rewrite Hlib2; reflexivity.
Qed.

(** X13. When [close] raises after the session's [commit] or [rollback]
    returned, [commit()] and [rollback()] pass the exception on before
    clearing the reference: the session, committed or rolled back, stays
    attached. *)
Theorem failed_close_leaves_session_attached :
  forall d a dict s name op e w,
    wrapper_at a dict w ->
    assoc "session" dict = Some (VSession s) ->
    (name = "commit" /\ op = Commit)
    \/ (name = "rollback" /\ op = Rollback) ->
    outcome (library w) (trace w ++ [session_event op s]) = None ->
    outcome (library w) (trace w ++ [session_event op s; session_close s])
    = Some e ->
    let w' := with_trace (trace w ++ [session_event op s; session_close s])
                w in
    invoke (S d) (VRef a) name [] w = (inl e, w')
    /\ load_attr (VRef a) "session" w' = (inr (VSession s), w').
Proof.
  intros d a dict s name op e w Hw Hs Hname Hlib1 Hlib2 w'.
  assert (Hcell := proj1 Hw).
  assert (Hm : exists m,
             find_method "SessionContextManager" name = Some m
             /\ ((op = Commit /\ m = SessionContextManager_commit)
                 \/ (op = Rollback /\ m = SessionContextManager_rollback))).
  { destruct Hname as [[-> ->] | [-> ->]]; eexists; split;
      try reflexivity; auto. }
  destruct Hm as (m & Hfind & Hop).
  pose proof (not_hidden _ _ _ _ _ Hw Hfind) as Hfree.
  split.
  - rewrite (invoke_method _ _ _ _ _ _ _ _ Hcell Hfree Hfind).
    eapply wrapper_method_fails_at_close; eauto.
  - now apply (load_attr_instance a "SessionContextManager" dict).
Qed.

Lemma failed_close_leaves_session_attached_witness :
  invoke 1 (VRef 1) "commit" [] failing_close_world
  = (inl (LibraryError 3),
     with_trace
       (trace failing_close_world ++ [session_commit 1; session_close 1])
       failing_close_world).
Proof.
  refine (proj1 (failed_close_leaves_session_attached 0 1
                   (assoc_set "session" (VSession 1) sample_wrapper) 1
                   "commit" Commit (LibraryError 3) failing_close_world
                   _ eq_refl (or_introl (conj eq_refl eq_refl)) eq_refl
                   eq_refl)).
  split; [reflexivity | exact (proj2 entered_wrapper_at)].
Defined.

(** ** Where the settings point *)

Lemma removelast_firstn_pred {A} (l : list A) :
  removelast l = firstn (List.length l - 1) l.
Proof.
  destruct l as [|x l] using rev_ind; [reflexivity|].
  rewrite removelast_last, length_app. simpl.
  replace (List.length l + 1 - 1) with (List.length l) by lia.
  now rewrite firstn_app, Nat.sub_diag, firstn_all, app_nil_r.
Qed.

Lemma removelast_firstn_sub {A} (l : list A) k :
  removelast (firstn (List.length l - k) l) = firstn (List.length l - S k) l.
Proof.
  rewrite removelast_firstn_pred, length_firstn, firstn_firstn.
  f_equal. lia.
Qed.

Lemma fourth_parent_parts file :
  parts (parent (parent (parent (parent file))))
  = firstn (List.length (parts file) - 4) (parts file).
Proof.
  cbn [parent parts].
  rewrite (removelast_firstn_pred (parts file)).
  now rewrite !removelast_firstn_sub.
Qed.

Lemma parent_of_child p name :
  parent (p / {| absolute := false; parts := [name] |})%path = p.
Proof.
  destruct p as [ab ps]. unfold truediv, parent; simpl.
  now rewrite removelast_last.
Qed.

Lemma parent_of_grandchild p dir name :
  parent (p / {| absolute := false; parts := [dir; name] |})%path
  = (p / {| absolute := false; parts := [dir] |})%path.
Proof.
  destruct p as [ab ps]. unfold truediv, parent; simpl.
  change (ps ++ [dir; name]) with (ps ++ [dir] ++ [name]).
  now rewrite app_assoc, removelast_last.
Qed.

(** X16. Importing the settings module prints one line, [MAIN_PATH]
    as text, and calls nothing else.  [MAIN_PATH] is the module's file
    path less its last four components (the root, if there are no more
    than four), absolute as the file path is; [APP_PATH] and [MEDIA_PATH]
    are children of it, [STATIC_FOLDER] and [TEMPLATES_FOLDER] are children
    of one and the same child of it. *)
Theorem settings_folders_hang_off_MAIN_PATH :
  forall lib file,
    let w := booted lib file in
    exists root app media static templates,
      load_attr (config_settings w) "MAIN_PATH" w = (inr (VPath root), w)
      /\ load_attr (config_settings w) "APP_PATH" w = (inr (VPath app), w)
      /\ load_attr (config_settings w) "MEDIA_PATH" w = (inr (VPath media), w)
      /\ load_attr (config_settings w) "STATIC_FOLDER" w
         = (inr (VPath static), w)
      /\ load_attr (config_settings w) "TEMPLATES_FOLDER" w
         = (inr (VPath templates), w)
      /\ trace w = [Print ("MAIN_PATH: " ++ Path_str root)]
      /\ absolute root = absolute file
      /\ parts root = firstn (List.length (parts file) - 4) (parts file)
      /\ parent app = root
      /\ parent media = root
      /\ parent static = parent templates
      /\ parent (parent static) = root.
Proof.
  intros lib file w.
  exists (parent (parent (parent (parent file)))).
  do 4 eexists.
  repeat match goal with |- _ /\ _ => split end;
    try (unfold w; reflexivity).
  - apply fourth_parent_parts.
  - apply (parent_of_child _ "app").
  - apply (parent_of_child _ "media").
  - change (Path_of "frontend/static")
      with {| absolute := false; parts := ["frontend"; "static"] |}.
    change (Path_of "frontend/templates")
      with {| absolute := false; parts := ["frontend"; "templates"] |}.
    now rewrite !parent_of_grandchild.
  - change (Path_of "frontend/static")
      with {| absolute := false; parts := ["frontend"; "static"] |}.
    now rewrite parent_of_grandchild, parent_of_child.
Qed.

(** X17. The session module imports the settings as [app.core.config]:
    the file is [app/core/config.py] in some directory.  When that
    directory has a parent, [APP_PATH] is [app] in the parent, a sibling of
    the directory, not the [app] package that holds the module. *)
Theorem APP_PATH_is_beside_the_app_package :
  forall lib file pre outer,
    parts file = pre ++ [outer; "app"; "core"; "config.py"] ->
    let w := booted lib file in
    exists app_path,
      load_attr (config_settings w) "APP_PATH" w = (inr (VPath app_path), w)
      /\ parts app_path = pre ++ ["app"]
      /\ parts (parent (parent file)) = pre ++ [outer; "app"]
      /\ app_path <> parent (parent file).
Proof.
  intros lib file pre outer Hfile w.
  assert (Hroot : parts (parent (parent (parent (parent file)))) = pre).
  { cbn [parent parts]. rewrite Hfile.
    change (pre ++ [outer; "app"; "core"; "config.py"])
      with (pre ++ [outer] ++ ["app"] ++ ["core"] ++ ["config.py"]).
    rewrite !app_assoc. now rewrite !removelast_last. }
  assert (Hpkg : parts (parent (parent file)) = pre ++ [outer; "app"]).
  { cbn [parent parts]. rewrite Hfile.
    change (pre ++ [outer; "app"; "core"; "config.py"])
      with (pre ++ [outer; "app"] ++ ["core"] ++ ["config.py"]).
    rewrite !app_assoc. now rewrite !removelast_last. }
  eexists. split; [unfold w; reflexivity|].
  assert (Happ : parts (parent (parent (parent (parent file)))
                        / Path_of "app")%path = pre ++ ["app"]).
  { change (Path_of "app") with {| absolute := false; parts := ["app"] |}.
    unfold truediv. cbn [absolute parts]. cbn [parts] in Hroot.
    now rewrite Hroot. }
  split; [exact Happ | split; [exact Hpkg|]].
  intros Heq. apply (f_equal parts) in Heq. rewrite Happ, Hpkg in Heq.
  apply (f_equal (@List.length string)) in Heq.
  rewrite !length_app in Heq. simpl in Heq. lia.
Qed.

Lemma APP_PATH_is_beside_the_app_package_witness :
  exists app_path,
    load_attr (config_settings (booted sqlalchemy config_py)) "APP_PATH"
      (booted sqlalchemy config_py)
    = (inr (VPath app_path), booted sqlalchemy config_py)
    /\ parts app_path = ["srv"; "sethub"; "app"]
    /\ parts (parent (parent config_py))
       = ["srv"; "sethub"; "backend"; "app"]
    /\ app_path <> parent (parent config_py).
Proof.
  exact (APP_PATH_is_beside_the_app_package sqlalchemy config_py
           ["srv"; "sethub"] "backend" eq_refl).
Defined.
